(** * avp-tropic: the AVP vault layer and the STM32U5 port, embedded in Rocq

    The development follows the C sources:
    - [avp/avp_tropic.c] (module [Avp]): the vault operations built on the
      libtropic entry points, which are an interface here ([Libtropic]);
    - [hal/stm32/stm32u5_tropic_click] (module [Port]): the port functions
      built on the STM32 HAL, which is an interface here ([Stm32Hal]);
    - [tests/functional_mock/lt_test_mock_invalid_app_fw_init.c] (module
      [MockInit]): the test of [lt_init] on a chip that stays in startup
      mode;
    - the secure session and [ping], whose C files are not embedded here
      (module [L3Spec]), after the specification.

    C data is modelled as the code has it: [char] buffers are lists of
    [ascii] of the declared size, written in place by index; a nullable
    pointer is an [option]; integers are [Z]; every call into libtropic or
    the HAL is threaded through an explicit state and appended to a log. *)

From Stdlib Require Import ZArith Lia Bool Ascii String.
From stdpp Require Import base list.

Local Open Scope Z_scope.

(** ** C strings and buffers *)

Module CStr.

Definition NUL : ascii := Ascii.zero.

Definition is_nul (c : ascii) : bool := Ascii.eqb c NUL.

(** The characters in front of the first NUL: what a [const char *]
    denotes.  The end of the list counts as a terminator. *)
Fixpoint c_str (mem : list ascii) : list ascii :=
  match mem with
  | [] => []
  | c :: rest => if is_nul c then [] else c :: c_str rest
  end.

(** [strlen] of a string literal or argument. *)
Definition strlen (s : string) : nat :=
  length (c_str (list_ascii_of_string s)).

(** Consecutive stores [buf[off] = d0; buf[off+1] = d1; ...]. *)
Fixpoint store_bytes (off : nat) (data buf : list ascii) : list ascii :=
  match data with
  | [] => buf
  | c :: cs => store_bytes (S off) cs (<[off := c]> buf)
  end.

(** [memset(buf, 0, sizeof buf)]. *)
Definition memset0 (buf : list ascii) : list ascii :=
  replicate (length buf) NUL.

(** [strcpy(dst, src)]: the characters of [src] and its terminator. *)
Definition strcpy (dst : list ascii) (src : string) : list ascii :=
  store_bytes 0 (c_str (list_ascii_of_string src) ++ [NUL]) dst.

(** [strncpy(dst, src, n)]: at most [n] characters, padded with NUL up
    to [n] bytes; no terminator when [src] has [n] characters or more. *)
Definition strncpy (dst : list ascii) (src : string) (n : nat) : list ascii :=
  let s := c_str (list_ascii_of_string src) in
  store_bytes 0 (take n s ++ replicate (n - length s) NUL) dst.

(** [snprintf(dst, max_len, "%s", src)]: truncated to [max_len - 1]
    characters and always terminated, nothing written for [max_len = 0]. *)
Definition snprintf_s (dst : list ascii) (max_len : nat) (src : string)
  : list ascii :=
  match max_len with
  | O => dst
  | S m => store_bytes 0 (take m (c_str (list_ascii_of_string src)) ++ [NUL]) dst
  end.

(** The C string held in a buffer, as a Rocq string. *)
Definition string_of_buf (buf : list ascii) : string :=
  string_of_list_ascii (c_str buf).

Definition all_zero (buf : list ascii) : Prop :=
  Forall (fun c => c = NUL) buf.

End CStr.

(** ** Return codes and the libtropic interface *)

(** [lt_ret_t] of libtropic_common.h, a header that is not embedded
    here: the members the embedded files name, and [LT_RET_OTHER n] for every
    other member of the enumeration. *)
Inductive lt_ret_t : Type :=
| LT_OK
| LT_FAIL
| LT_L1_SPI_ERROR
| LT_L1_DATA_LEN_ERROR
| LT_L1_INT_TIMEOUT
| LT_L3_SLOT_IS_EMPTY
| LT_RET_OTHER (n : Z).

#[global] Instance lt_ret_eq_dec : EqDecision lt_ret_t.
Proof. solve_decision. Defined.

(** [lt_ret == LT_OK] *)
Definition lt_is_ok (r : lt_ret_t) : bool := bool_decide (r = LT_OK).

(** The libtropic entry points [avp_tropic.c] calls, with the arguments
    passed at the call. *)
Inductive lt_call : Type :=
| Call_lt_init
| Call_lt_deinit
| Call_lt_login (pin : string) (pin_len : Z)
| Call_lt_r_mem_data_write (slot : Z) (value : list Z) (value_len : Z)
| Call_lt_r_mem_data_read (slot : Z) (read_len : Z)
| Call_lt_r_mem_data_erase (slot : Z)
| Call_lt_ecc_ecdsa_sign (slot : Z) (data : list Z) (data_len : Z).

(** libtropic and the chip behind it.  [chip_t] is everything a libtropic
    call can reach besides the handle it is given: the bus and the secure
    element.  Each entry point maps handle and chip to a return code, the
    new handle, its output parameters and the new chip. *)
Class Libtropic : Type := {
  lt_handle_t : Type;
  chip_t : Type;
  device_t : Type;
  (** the handle after [memset(vault, 0, sizeof(avp_vault_t))] *)
  lt_handle_zeroed : lt_handle_t;
  lt_init : lt_handle_t -> device_t -> chip_t -> lt_ret_t * lt_handle_t * chip_t;
  lt_deinit : lt_handle_t -> chip_t -> lt_ret_t * lt_handle_t * chip_t;
  lt_login : lt_handle_t -> string -> Z -> chip_t -> lt_ret_t * lt_handle_t * chip_t;
  lt_r_mem_data_write :
    lt_handle_t -> Z -> list Z -> Z -> chip_t -> lt_ret_t * lt_handle_t * chip_t;
  (** slot, caller's buffer, [*read_len] on entry; buffer and [*read_len] on exit *)
  lt_r_mem_data_read :
    lt_handle_t -> Z -> list Z -> Z -> chip_t ->
    lt_ret_t * lt_handle_t * (list Z * Z) * chip_t;
  lt_r_mem_data_erase : lt_handle_t -> Z -> chip_t -> lt_ret_t * lt_handle_t * chip_t;
  (** slot, message, length, caller's signature buffer; signature buffer on exit *)
  lt_ecc_ecdsa_sign :
    lt_handle_t -> Z -> list Z -> Z -> list Z -> chip_t ->
    lt_ret_t * lt_handle_t * list Z * chip_t
}.

(** The state outside the vault structure: the chip, and the log of the
    libtropic calls made so far (oldest first). *)
Record bus_t `{Libtropic} : Type := mk_bus {
  chip : chip_t;
  calls : list lt_call
}.

(** Computations over a state [S]: the C code run against the world it
    mutates. *)
Definition St (S A : Type) : Type := S -> A * S.

Definition ret {S A : Type} (a : A) : St S A := fun s => (a, s).

Definition bind {S A B : Type} (m : St S A) (k : A -> St S B) : St S B :=
  fun s => let (a, s') := m s in k a s'.

Declare Scope st_scope.
Delimit Scope st_scope with st.
Notation "'do' x <- m ;; k" := (bind m (fun x => k))
  (at level 10, x name, m at level 99, k at level 200) : st_scope.
Notation "'do' ' pat <- m ;; k" := (bind m (fun x => match x with pat => k end))
  (at level 10, pat pattern, m at level 99, k at level 200) : st_scope.

(** Computations that may call into libtropic. *)
Definition Bus `{Libtropic} (A : Type) : Type := St bus_t A.

(** One libtropic call: logged, then run on the chip. *)
Definition invoke `{Libtropic} {A : Type} (c : lt_call) (f : chip_t -> A * chip_t)
  : Bus A :=
  fun b => let (a, ch) := f (chip b) in (a, mk_bus _ ch (calls b ++ [c])).

(** ** The AVP vault layer: avp/avp_tropic.h and avp/avp_tropic.c *)

Module Avp.
Import CStr.
Local Open Scope st_scope.

Inductive avp_ret_t : Type :=
| AVP_OK
| AVP_ERR_NOT_INITIALIZED
| AVP_ERR_AUTHENTICATION_FAILED
| AVP_ERR_SESSION_EXPIRED
| AVP_ERR_SECRET_NOT_FOUND
| AVP_ERR_CAPACITY_EXCEEDED
| AVP_ERR_INVALID_NAME
| AVP_ERR_HARDWARE_ERROR
| AVP_ERR_CRYPTO_ERROR
| AVP_ERR_INTERNAL.

#[global] Instance avp_ret_eq_dec : EqDecision avp_ret_t.
Proof. solve_decision. Defined.

Definition AVP_MAX_SECRET_NAME_LEN : nat := 255.
Definition AVP_MAX_SECRET_VALUE_LEN : Z := 65536.
Definition AVP_TROPIC_KEY_SLOTS : Z := 128.
Definition AVP_SESSION_PREFIX : string := "avp_sess_".
Definition AVP_DEFAULT_TTL_SECONDS : Z := 300.
Definition AVP_SESSION_ID_LEN : nat := 32.

Inductive avp_session_state_t : Type :=
| AVP_SESSION_INACTIVE
| AVP_SESSION_ACTIVE
| AVP_SESSION_EXPIRED
| AVP_SESSION_TERMINATED.

#[global] Instance avp_session_state_eq_dec : EqDecision avp_session_state_t.
Proof. solve_decision. Defined.

(** [avp_vault_t]; [session_id] is [char[64]] and [workspace] is
    [char[256]]. *)
Record avp_vault_t `{Libtropic} : Type := mk_vault {
  lt_handle : lt_handle_t;
  session_state : avp_session_state_t;
  session_id : list ascii;
  session_created_at : Z;
  session_ttl : Z;
  workspace : list ascii;
  authenticated : bool
}.

(** The sizes the C declaration gives the two arrays. *)
Definition vault_sized `{Libtropic} (v : avp_vault_t) : Prop :=
  length (session_id v) = 64%nat /\ length (workspace v) = 256%nat.

(** *** Internal helpers *)

Definition is_upper (c : ascii) : bool :=
  (nat_of_ascii "A" <=? nat_of_ascii c)%nat && (nat_of_ascii c <=? nat_of_ascii "Z")%nat.
Definition is_lower (c : ascii) : bool :=
  (nat_of_ascii "a" <=? nat_of_ascii c)%nat && (nat_of_ascii c <=? nat_of_ascii "z")%nat.
Definition is_digit (c : ascii) : bool :=
  (nat_of_ascii "0" <=? nat_of_ascii c)%nat && (nat_of_ascii c <=? nat_of_ascii "9")%nat.

(** The body of the loop over [name[1 .. len-1]]. *)
Definition name_char_valid (c : ascii) : bool :=
  is_upper c || is_lower c || is_digit c
  || Ascii.eqb c "_" || Ascii.eqb c "." || Ascii.eqb c "-".

Fixpoint name_rest_valid (cs : list ascii) : bool :=
  match cs with
  | [] => true
  | c :: cs' => if name_char_valid c then name_rest_valid cs' else false
  end.

Definition validate_secret_name (name : option string) : bool :=
  match name with
  | None => false
  | Some s =>
      match c_str (list_ascii_of_string s) with
      | [] => false                                (* name[0] == '\0' *)
      | c :: rest =>
          if (AVP_MAX_SECRET_NAME_LEN <? length (c :: rest))%nat then false
          else if negb (is_upper c || is_lower c) then false
          else name_rest_valid rest
      end
  end.

Definition charset : string :=
  "abcdefghijklmnopqrstuvwxyzABCDEFGHIJKLMNOPQRSTUVWXYZ0123456789".

(** [charset[k]] *)
Definition charset_at (k : nat) : ascii :=
  default NUL (list_ascii_of_string charset !! k).

(** The [for] loop of [generate_session_id], started at index [i]:
    [fuel] bounds the iterations, of which there are at most
    [AVP_SESSION_ID_LEN]. *)
Fixpoint fill_suffix (fuel i prefix_len max_len : nat) (buf : list ascii)
  : list ascii :=
  match fuel with
  | O => buf
  | S fuel' =>
      if (i <? prefix_len + AVP_SESSION_ID_LEN)%nat && (i <? max_len - 1)%nat
      then fill_suffix fuel' (S i) prefix_len max_len
             (<[i := charset_at (i mod 62)]> buf)
      else buf
  end.

(** [max_len] is [sizeof(vault->session_id)] at the only call; for
    [max_len = 0] the C expression [max_len - 1] would wrap, which the
    natural-number subtraction here does not follow. *)
Definition generate_session_id (session_id : list ascii) (max_len : nat)
  : list ascii :=
  let buf := snprintf_s session_id max_len AVP_SESSION_PREFIX in
  let prefix_len := strlen AVP_SESSION_PREFIX in
  let buf := fill_suffix AVP_SESSION_ID_LEN prefix_len prefix_len max_len buf in
  <[(prefix_len + AVP_SESSION_ID_LEN)%nat := NUL]> buf.

(** *** Field updates *)

Definition set_lt_handle `{Libtropic} (v : avp_vault_t) (h : lt_handle_t) :=
  mk_vault _ h (session_state v) (session_id v) (session_created_at v)
    (session_ttl v) (workspace v) (authenticated v).
Definition set_workspace `{Libtropic} (v : avp_vault_t) (w : list ascii) :=
  mk_vault _ (lt_handle v) (session_state v) (session_id v) (session_created_at v)
    (session_ttl v) w (authenticated v).

(** *** Operations *)

(** [memset(vault, 0, sizeof(avp_vault_t))] *)
Definition vault_zeroed `{Libtropic} : avp_vault_t :=
  mk_vault _ lt_handle_zeroed AVP_SESSION_INACTIVE (replicate 64 NUL) 0 0
    (replicate 256 NUL) false.

Definition avp_init `{Libtropic} (vault : option avp_vault_t) (device : option device_t)
  : Bus (avp_ret_t * option avp_vault_t) :=
  match vault, device with
  | Some _, Some dev =>
      let v := vault_zeroed in
      do '(lt_ret, h) <- invoke Call_lt_init (lt_init (lt_handle v) dev) ;;
      let v := set_lt_handle v h in
      if negb (lt_is_ok lt_ret) then ret (AVP_ERR_HARDWARE_ERROR, Some v)
      else
        ret (AVP_OK,
             Some (mk_vault _ (lt_handle v) AVP_SESSION_INACTIVE (session_id v)
                     (session_created_at v) (session_ttl v)
                     (strcpy (workspace v) "default") false))
  | _, _ => ret (AVP_ERR_INTERNAL, vault)
  end.

Definition avp_deinit `{Libtropic} (vault : option avp_vault_t)
  : Bus (avp_ret_t * option avp_vault_t) :=
  match vault with
  | None => ret (AVP_ERR_INTERNAL, None)
  | Some v =>
      do '(_, h) <- invoke Call_lt_deinit (lt_deinit (lt_handle v)) ;;
      (* Zero sensitive data *)
      ret (AVP_OK,
           Some (mk_vault _ h AVP_SESSION_INACTIVE (memset0 (session_id v))
                   (session_created_at v) (session_ttl v) (workspace v) false))
  end.

Definition avp_authenticate `{Libtropic} (vault : option avp_vault_t)
    (workspace_arg pin : option string) (ttl_seconds : Z)
  : Bus (avp_ret_t * option avp_vault_t) :=
  match vault with
  | None => ret (AVP_ERR_INTERNAL, None)
  | Some v =>
      (* Set workspace *)
      let v :=
        match workspace_arg with
        | Some w => set_workspace v (strncpy (workspace v) w (256 - 1))
        | None => set_workspace v (strcpy (workspace v) "default")
        end in
      (* Authenticate with TROPIC01 using PIN *)
      do '(lt_ret, v) <-
        match pin with
        | Some p =>
            do '(r, h) <-
              invoke (Call_lt_login p (Z.of_nat (strlen p)))
                (lt_login (lt_handle v) p (Z.of_nat (strlen p))) ;;
            ret (r, set_lt_handle v h)
        | None => ret (LT_OK, v)
        end ;;
      if negb (lt_is_ok lt_ret) then ret (AVP_ERR_AUTHENTICATION_FAILED, Some v)
      else
        ret (AVP_OK,
             Some (mk_vault _ (lt_handle v) AVP_SESSION_ACTIVE
                     (generate_session_id (session_id v) 64)
                     0
                     (if 0 <? ttl_seconds then ttl_seconds else AVP_DEFAULT_TTL_SECONDS)
                     (workspace v) true))
  end.

Definition avp_store `{Libtropic} (vault : option avp_vault_t) (name : option string)
    (value : option (list Z)) (value_len : Z)
  : Bus (avp_ret_t * option avp_vault_t) :=
  match vault, name, value with
  | Some v, Some _, Some val =>
      if negb (authenticated v) then ret (AVP_ERR_NOT_INITIALIZED, vault)
      else if negb (validate_secret_name name) then ret (AVP_ERR_INVALID_NAME, vault)
      else if AVP_MAX_SECRET_VALUE_LEN <? value_len then ret (AVP_ERR_INTERNAL, vault)
      else
        (* Store in TROPIC01 *)
        do '(lt_ret, h) <-
          invoke (Call_lt_r_mem_data_write 0 val value_len)
            (lt_r_mem_data_write (lt_handle v) 0 val value_len) ;;
        let v := set_lt_handle v h in
        if negb (lt_is_ok lt_ret) then ret (AVP_ERR_HARDWARE_ERROR, Some v)
        else ret (AVP_OK, Some v)
  | _, _, _ => ret (AVP_ERR_INTERNAL, vault)
  end.

(** The outputs of [avp_retrieve]: the caller's [value] buffer and
    [*value_len] as the call leaves them. *)
Record retrieve_out : Type := mk_retrieve_out {
  value_buf : option (list Z);
  value_len_out : option Z
}.

Definition avp_retrieve `{Libtropic} (vault : option avp_vault_t) (name : option string)
    (value : option (list Z)) (value_len : option Z)
  : Bus (avp_ret_t * option avp_vault_t * retrieve_out) :=
  match vault, name, value, value_len with
  | Some v, Some _, Some buf, Some len =>
      if negb (authenticated v)
      then ret (AVP_ERR_NOT_INITIALIZED, vault, mk_retrieve_out value value_len)
      else if negb (validate_secret_name name)
      then ret (AVP_ERR_INVALID_NAME, vault, mk_retrieve_out value value_len)
      else
        (* Retrieve from TROPIC01 *)
        let read_len := len mod 65536 in           (* (uint16_t)*value_len *)
        do '(lt_ret, h, (buf', read_len')) <-
          invoke (Call_lt_r_mem_data_read 0 read_len)
            (lt_r_mem_data_read (lt_handle v) 0 buf read_len) ;;
        let v := set_lt_handle v h in
        if negb (lt_is_ok lt_ret) then
          if bool_decide (lt_ret = LT_L3_SLOT_IS_EMPTY)
          then ret (AVP_ERR_SECRET_NOT_FOUND, Some v, mk_retrieve_out (Some buf') value_len)
          else ret (AVP_ERR_HARDWARE_ERROR, Some v, mk_retrieve_out (Some buf') value_len)
        else ret (AVP_OK, Some v, mk_retrieve_out (Some buf') (Some read_len'))
  | _, _, _, _ => ret (AVP_ERR_INTERNAL, vault, mk_retrieve_out value value_len)
  end.

(** [deleted] is the [bool] the pointer refers to, [None] for a NULL
    pointer; the third component is that [bool] after the call. *)
Definition avp_delete `{Libtropic} (vault : option avp_vault_t) (name : option string)
    (deleted : option bool)
  : Bus (avp_ret_t * option avp_vault_t * option bool) :=
  match vault, name with
  | Some v, Some _ =>
      if negb (authenticated v) then ret (AVP_ERR_NOT_INITIALIZED, vault, deleted)
      else
        (* Delete from TROPIC01 *)
        do '(lt_ret, h) <-
          invoke (Call_lt_r_mem_data_erase 0) (lt_r_mem_data_erase (lt_handle v) 0) ;;
        let deleted' :=
          match deleted with
          | Some _ => Some (lt_is_ok lt_ret)
          | None => None
          end in
        ret (AVP_OK, Some (set_lt_handle v h), deleted')
  | _, _ => ret (AVP_ERR_INTERNAL, vault, deleted)
  end.

(** [secrets] is not written by the code; [count] is [*count] after the
    call, [None] for a NULL pointer. *)
Definition avp_list `{Libtropic} (vault : option avp_vault_t) (max_secrets : Z)
    (count : option Z)
  : Bus (avp_ret_t * option avp_vault_t * option Z) :=
  match vault, count with
  | Some v, Some _ =>
      if negb (authenticated v) then ret (AVP_ERR_NOT_INITIALIZED, vault, count)
      else ret (AVP_OK, vault, Some 0)
  | _, _ => ret (AVP_ERR_INTERNAL, vault, count)
  end.

(** The outputs of [avp_hw_sign]: the [signature] buffer and
    [*signature_len]. *)
Record sign_out : Type := mk_sign_out {
  signature_buf : option (list Z);
  signature_len_out : option Z
}.

Definition avp_hw_sign `{Libtropic} (vault : option avp_vault_t)
    (key_name : option string) (data : option (list Z)) (data_len : Z)
    (signature : option (list Z)) (signature_len : option Z)
  : Bus (avp_ret_t * option avp_vault_t * sign_out) :=
  match vault, key_name, data, signature, signature_len with
  | Some v, Some _, Some d, Some sig, Some _ =>
      if negb (authenticated v)
      then ret (AVP_ERR_NOT_INITIALIZED, vault, mk_sign_out signature signature_len)
      else
        do '(lt_ret, h, sig') <-
          invoke (Call_lt_ecc_ecdsa_sign 0 d data_len)
            (lt_ecc_ecdsa_sign (lt_handle v) 0 d data_len sig) ;;
        let v := set_lt_handle v h in
        if negb (lt_is_ok lt_ret)
        then ret (AVP_ERR_HARDWARE_ERROR, Some v, mk_sign_out (Some sig') signature_len)
        else ret (AVP_OK, Some v, mk_sign_out (Some sig') (Some 64))
  | _, _, _, _, _ =>
      ret (AVP_ERR_INTERNAL, vault, mk_sign_out signature signature_len)
  end.

Definition avp_session_active `{Libtropic} (vault : option avp_vault_t) : bool :=
  match vault with
  | None => false
  | Some v =>
      bool_decide (session_state v = AVP_SESSION_ACTIVE) && authenticated v
  end.

End Avp.

(** ** The STM32U5 port: libtropic_port_stm32u5_tropic_click.[ch] *)

Module Port.
Local Open Scope st_scope.

(** *** STM32 HAL types the port uses *)

Inductive HAL_StatusTypeDef : Type := HAL_OK | HAL_ERROR | HAL_BUSY | HAL_TIMEOUT.

#[global] Instance hal_status_eq_dec : EqDecision HAL_StatusTypeDef.
Proof. solve_decision. Defined.

Inductive GPIO_PinState : Type := GPIO_PIN_RESET | GPIO_PIN_SET.

#[global] Instance gpio_pinstate_eq_dec : EqDecision GPIO_PinState.
Proof. solve_decision. Defined.

Inductive spi_direction : Type :=
| SPI_DIRECTION_2LINES | SPI_DIRECTION_2LINES_TXONLY
| SPI_DIRECTION_2LINES_RXONLY | SPI_DIRECTION_1LINE.
Inductive spi_clk_phase : Type := SPI_PHASE_1EDGE | SPI_PHASE_2EDGE.
Inductive spi_clk_polarity : Type := SPI_POLARITY_LOW | SPI_POLARITY_HIGH.
Inductive spi_crc_calculation : Type :=
| SPI_CRCCALCULATION_DISABLE | SPI_CRCCALCULATION_ENABLE.
Inductive spi_datasize : Type :=
| SPI_DATASIZE_4BIT | SPI_DATASIZE_8BIT | SPI_DATASIZE_16BIT | SPI_DATASIZE_32BIT.
Inductive spi_first_bit : Type := SPI_FIRSTBIT_MSB | SPI_FIRSTBIT_LSB.
Inductive spi_nss : Type := SPI_NSS_SOFT | SPI_NSS_HARD_INPUT | SPI_NSS_HARD_OUTPUT.
Inductive spi_ti_mode : Type := SPI_TIMODE_DISABLE | SPI_TIMODE_ENABLE.
Inductive spi_mode : Type := SPI_MODE_SLAVE | SPI_MODE_MASTER.
Inductive spi_nssp_mode : Type := SPI_NSS_PULSE_DISABLE | SPI_NSS_PULSE_ENABLE.
Inductive spi_keep_io_state : Type :=
| SPI_MASTER_KEEP_IO_STATE_DISABLE | SPI_MASTER_KEEP_IO_STATE_ENABLE.

(** What the HAL values mean on the wire. *)
Definition cpol (p : spi_clk_polarity) : Z :=
  match p with SPI_POLARITY_LOW => 0 | SPI_POLARITY_HIGH => 1 end.
Definition cpha (p : spi_clk_phase) : Z :=
  match p with SPI_PHASE_1EDGE => 0 | SPI_PHASE_2EDGE => 1 end.
Definition frame_bits (d : spi_datasize) : Z :=
  match d with
  | SPI_DATASIZE_4BIT => 4 | SPI_DATASIZE_8BIT => 8
  | SPI_DATASIZE_16BIT => 16 | SPI_DATASIZE_32BIT => 32
  end.
(** The electrical level a pin state drives. *)
Definition pin_level_high (s : GPIO_PinState) : bool :=
  match s with GPIO_PIN_RESET => false | GPIO_PIN_SET => true end.

(** [SPI_InitTypeDef]: the fields [lt_port_init] assigns.  The HAL
    structure has further fields, which the port never writes. *)
Record SPI_InitTypeDef : Type := mk_spi_init {
  BaudRatePrescaler : Z;
  Direction : spi_direction;
  CLKPhase : spi_clk_phase;
  CLKPolarity : spi_clk_polarity;
  CRCCalculation : spi_crc_calculation;
  DataSize : spi_datasize;
  FirstBit : spi_first_bit;
  NSS : spi_nss;
  TIMode : spi_ti_mode;
  Mode : spi_mode;
  NSSPMode : spi_nssp_mode;
  MasterKeepIOState : spi_keep_io_state
}.

(** [SPI_HandleTypeDef]: [Instance] is the peripheral's address. *)
Record SPI_HandleTypeDef : Type := mk_spi_handle {
  Instance_ : Z;
  Init : SPI_InitTypeDef
}.

Inductive gpio_mode : Type := GPIO_MODE_INPUT | GPIO_MODE_OUTPUT_PP | GPIO_MODE_OUTPUT_OD.
Inductive gpio_pull : Type := GPIO_NOPULL | GPIO_PULLUP | GPIO_PULLDOWN.
Inductive gpio_speed : Type :=
| GPIO_SPEED_FREQ_LOW | GPIO_SPEED_FREQ_MEDIUM
| GPIO_SPEED_FREQ_HIGH | GPIO_SPEED_FREQ_VERY_HIGH.

Record GPIO_InitTypeDef : Type := mk_gpio_init {
  Pin : Z;
  Mode_ : gpio_mode;
  Pull : gpio_pull;
  Speed : gpio_speed
}.

(** The HAL calls of the port, with their arguments. *)
Inductive hal_call : Type :=
| Call_HAL_SPI_Init (hspi : SPI_HandleTypeDef)
| Call_HAL_SPI_DeInit (hspi : SPI_HandleTypeDef)
| Call_HAL_GPIO_WritePin (port pin : Z) (state : GPIO_PinState)
| Call_HAL_GPIO_ReadPin (port pin : Z)
| Call_HAL_GPIO_Init (port : Z) (init : GPIO_InitTypeDef)
| Call_HAL_SPI_TransmitReceive (hspi : SPI_HandleTypeDef) (tx : list Z) (size timeout : Z).

(** The STM32 HAL and the board behind it, and the three build-time
    values the port file takes from headers outside it:
    [SPI_BAUDRATEPRESCALER_32] of the HAL, [LT_USE_INT_PIN] of the build
    and [TR01_L1_LEN_MAX] of lt_l1.h.  None of them is given a number
    here. *)
Class Stm32Hal : Type := {
  board_t : Type;
  SPI_BAUDRATEPRESCALER_32 : Z;
  LT_USE_INT_PIN : bool;
  TR01_L1_LEN_MAX : Z;
  HAL_SPI_Init : SPI_HandleTypeDef -> board_t -> HAL_StatusTypeDef * board_t;
  HAL_SPI_DeInit : SPI_HandleTypeDef -> board_t -> HAL_StatusTypeDef * board_t;
  HAL_GPIO_WritePin : Z -> Z -> GPIO_PinState -> board_t -> unit * board_t;
  HAL_GPIO_ReadPin : Z -> Z -> board_t -> GPIO_PinState * board_t;
  HAL_GPIO_Init : Z -> GPIO_InitTypeDef -> board_t -> unit * board_t;
  (** handle, bytes to send, size, timeout: status and the bytes received *)
  HAL_SPI_TransmitReceive :
    SPI_HandleTypeDef -> list Z -> Z -> Z -> board_t ->
    HAL_StatusTypeDef * list Z * board_t
}.

(** The board and the log of HAL calls made so far (oldest first). *)
Record mcu_t `{Stm32Hal} : Type := mk_mcu {
  board : board_t;
  hal_calls : list hal_call
}.

Definition Hal `{Stm32Hal} (A : Type) : Type := St mcu_t A.

Definition hal `{Stm32Hal} {A : Type} (c : hal_call) (f : board_t -> A * board_t)
  : Hal A :=
  fun m => let (a, b) := f (board m) in (a, mk_mcu _ b (hal_calls m ++ [c])).

(** *** Port data *)

Definition LT_STM32U5_GPIO_CHECK_ATTEMPTS : nat := 10.

(** [lt_dev_stm32u5_tropic_click_t].  Pointers are addresses, 0 for NULL;
    [rng_handle] is not used by the functions below. *)
Record lt_dev_stm32u5_tropic_click_t : Type := mk_dev {
  spi_instance : Z;
  baudrate_prescaler : Z;
  spi_cs_gpio_pin : Z;
  spi_cs_gpio_port : Z;
  int_gpio_pin : Z;
  int_gpio_port : Z;
  rst_gpio_pin : Z;
  rst_gpio_port : Z;
  spi_handle : SPI_HandleTypeDef
}.

(** [lt_l2_state_t]: the fields the port reads, [device] dereferenced. *)
Record lt_l2_state_t : Type := mk_l2 {
  device : lt_dev_stm32u5_tropic_click_t;
  buff : list Z
}.

Definition set_spi_handle (d : lt_dev_stm32u5_tropic_click_t) (h : SPI_HandleTypeDef) :=
  mk_dev (spi_instance d) (baudrate_prescaler d) (spi_cs_gpio_pin d)
    (spi_cs_gpio_port d) (int_gpio_pin d) (int_gpio_port d) (rst_gpio_pin d)
    (rst_gpio_port d) h.

(** *** SPI chip select control *)

(** The verification loop of [lt_port_spi_csn_low] and
    [lt_port_spi_csn_high]: up to [attempts] reads of the pin. *)
Fixpoint wait_pin `{Stm32Hal} (attempts : nat) (port pin : Z) (want : GPIO_PinState)
  : Hal lt_ret_t :=
  match attempts with
  | O => ret LT_L1_SPI_ERROR
  | S n =>
      do st <- hal (Call_HAL_GPIO_ReadPin port pin) (HAL_GPIO_ReadPin port pin) ;;
      if bool_decide (st = want) then ret LT_OK else wait_pin n port pin want
  end.

Definition lt_port_spi_csn_low `{Stm32Hal} (s2 : lt_l2_state_t) : Hal lt_ret_t :=
  let dev := device s2 in
  do _ <- hal (Call_HAL_GPIO_WritePin (spi_cs_gpio_port dev) (spi_cs_gpio_pin dev) GPIO_PIN_RESET)
            (HAL_GPIO_WritePin (spi_cs_gpio_port dev) (spi_cs_gpio_pin dev) GPIO_PIN_RESET) ;;
  wait_pin LT_STM32U5_GPIO_CHECK_ATTEMPTS (spi_cs_gpio_port dev) (spi_cs_gpio_pin dev)
    GPIO_PIN_RESET.

Definition lt_port_spi_csn_high `{Stm32Hal} (s2 : lt_l2_state_t) : Hal lt_ret_t :=
  let dev := device s2 in
  do _ <- hal (Call_HAL_GPIO_WritePin (spi_cs_gpio_port dev) (spi_cs_gpio_pin dev) GPIO_PIN_SET)
            (HAL_GPIO_WritePin (spi_cs_gpio_port dev) (spi_cs_gpio_pin dev) GPIO_PIN_SET) ;;
  wait_pin LT_STM32U5_GPIO_CHECK_ATTEMPTS (spi_cs_gpio_port dev) (spi_cs_gpio_pin dev)
    GPIO_PIN_SET.

(** *** Port initialization *)

Definition when `{Stm32Hal} (c : bool) (m : Hal unit) : Hal unit :=
  if c then m else ret tt.

Definition lt_port_init `{Stm32Hal} (s2 : lt_l2_state_t) : Hal (lt_ret_t * lt_l2_state_t) :=
  let dev := device s2 in
  (* Configure SPI *)
  let prescaler :=
    if baudrate_prescaler dev =? 0 then SPI_BAUDRATEPRESCALER_32
    else baudrate_prescaler dev in
  let hspi :=
    mk_spi_handle (spi_instance dev)
      (mk_spi_init prescaler SPI_DIRECTION_2LINES SPI_PHASE_1EDGE SPI_POLARITY_LOW
         SPI_CRCCALCULATION_DISABLE SPI_DATASIZE_8BIT SPI_FIRSTBIT_MSB SPI_NSS_SOFT
         SPI_TIMODE_DISABLE SPI_MODE_MASTER SPI_NSS_PULSE_DISABLE
         SPI_MASTER_KEEP_IO_STATE_ENABLE) in
  let dev := set_spi_handle dev hspi in
  let s2 := mk_l2 dev (buff s2) in
  do r <- hal (Call_HAL_SPI_Init hspi) (HAL_SPI_Init hspi) ;;
  if negb (bool_decide (r = HAL_OK)) then ret (LT_L1_SPI_ERROR, s2)
  else
    (* Configure CS GPIO *)
    do _ <- hal (Call_HAL_GPIO_WritePin (spi_cs_gpio_port dev) (spi_cs_gpio_pin dev) GPIO_PIN_SET)
              (HAL_GPIO_WritePin (spi_cs_gpio_port dev) (spi_cs_gpio_pin dev) GPIO_PIN_SET) ;;
    let cs_init :=
      mk_gpio_init (spi_cs_gpio_pin dev) GPIO_MODE_OUTPUT_PP GPIO_PULLUP
        GPIO_SPEED_FREQ_HIGH in
    do _ <- hal (Call_HAL_GPIO_Init (spi_cs_gpio_port dev) cs_init)
              (HAL_GPIO_Init (spi_cs_gpio_port dev) cs_init) ;;
    (* Configure INT GPIO *)
    let int_init :=
      mk_gpio_init (int_gpio_pin dev) GPIO_MODE_INPUT GPIO_NOPULL GPIO_SPEED_FREQ_LOW in
    do _ <- when LT_USE_INT_PIN
              (hal (Call_HAL_GPIO_Init (int_gpio_port dev) int_init)
                 (HAL_GPIO_Init (int_gpio_port dev) int_init)) ;;
    (* Configure RST GPIO if used *)
    let rst_init :=
      mk_gpio_init (rst_gpio_pin dev) GPIO_MODE_OUTPUT_PP GPIO_PULLUP GPIO_SPEED_FREQ_LOW in
    do _ <- when (negb (rst_gpio_port dev =? 0) && negb (rst_gpio_pin dev =? 0))
              (do _ <- hal (Call_HAL_GPIO_WritePin (rst_gpio_port dev) (rst_gpio_pin dev) GPIO_PIN_SET)
                         (HAL_GPIO_WritePin (rst_gpio_port dev) (rst_gpio_pin dev) GPIO_PIN_SET) ;;
               hal (Call_HAL_GPIO_Init (rst_gpio_port dev) rst_init)
                 (HAL_GPIO_Init (rst_gpio_port dev) rst_init)) ;;
    ret (LT_OK, s2).

Definition lt_port_deinit `{Stm32Hal} (s2 : lt_l2_state_t) : Hal lt_ret_t :=
  let hspi := spi_handle (device s2) in
  do r <- hal (Call_HAL_SPI_DeInit hspi) (HAL_SPI_DeInit hspi) ;;
  if negb (bool_decide (r = HAL_OK)) then ret LT_L1_SPI_ERROR else ret LT_OK.

(** *** SPI transfer *)

(** The received bytes land where the sent ones were:
    [buf[off .. off + |rx|)]. *)
Fixpoint store_rx (off : nat) (rx buf : list Z) : list Z :=
  match rx with
  | [] => buf
  | x :: rx' => store_rx (S off) rx' (<[off := x]> buf)
  end.

(** [offset] is a [uint8_t] and [tx_data_length] a [uint16_t]; their sum
    is computed in [int] and cannot wrap. *)
Definition lt_port_spi_transfer `{Stm32Hal} (s2 : lt_l2_state_t)
    (offset tx_data_length timeout_ms : Z)
  : Hal (lt_ret_t * lt_l2_state_t) :=
  let dev := device s2 in
  if TR01_L1_LEN_MAX <? offset + tx_data_length then ret (LT_L1_DATA_LEN_ERROR, s2)
  else
    let off := Z.to_nat offset in
    let len := Z.to_nat tx_data_length in
    let tx := take len (drop off (buff s2)) in
    do '(r, rx) <-
      hal (Call_HAL_SPI_TransmitReceive (spi_handle dev) tx tx_data_length timeout_ms)
        (HAL_SPI_TransmitReceive (spi_handle dev) tx tx_data_length timeout_ms) ;;
    let s2 := mk_l2 dev (store_rx off (take len rx) (buff s2)) in
    if negb (bool_decide (r = HAL_OK)) then ret (LT_L1_SPI_ERROR, s2)
    else ret (LT_OK, s2).


End Port.

(** ** Simulated back ends

    Small instances of the two interfaces, used to run the operations on
    concrete inputs.  They stand in for the chip and the board; they are
    not part of the repository. *)

Module Sim.

(** A chip with one user-data slot and a PIN. *)
Record sim_chip : Type := mk_sim_chip {
  slot0 : option (list Z);
  pin_code : string
}.

Definition sim_login (h : unit) (pin : string) (len : Z) (c : sim_chip)
  : lt_ret_t * unit * sim_chip :=
  (if String.eqb pin (pin_code c) then LT_OK else LT_FAIL, h, c).

Definition sim_write (h : unit) (slot : Z) (value : list Z) (len : Z) (c : sim_chip)
  : lt_ret_t * unit * sim_chip :=
  if (len <=? 444) && (0 <? len)
  then (LT_OK, h, mk_sim_chip (Some (take (Z.to_nat len) value)) (pin_code c))
  else (LT_FAIL, h, c).

Definition sim_read (h : unit) (slot : Z) (buf : list Z) (len : Z) (c : sim_chip)
  : lt_ret_t * unit * (list Z * Z) * sim_chip :=
  match slot0 c with
  | None => (LT_L3_SLOT_IS_EMPTY, h, (buf, len), c)
  | Some d => (LT_OK, h, (d ++ drop (length d) buf, Z.of_nat (length d)), c)
  end.

Definition sim_erase (h : unit) (slot : Z) (c : sim_chip)
  : lt_ret_t * unit * sim_chip :=
  (LT_OK, h, mk_sim_chip None (pin_code c)).

#[export] Instance sim_libtropic : Libtropic := {|
  lt_handle_t := unit;
  chip_t := sim_chip;
  device_t := unit;
  lt_handle_zeroed := tt;
  lt_init := fun h _ c => (LT_OK, h, c);
  lt_deinit := fun h c => (LT_OK, h, c);
  lt_login := sim_login;
  lt_r_mem_data_write := sim_write;
  lt_r_mem_data_read := sim_read;
  lt_r_mem_data_erase := sim_erase;
  lt_ecc_ecdsa_sign := fun h _ _ _ sig c => (LT_FAIL, h, sig, c)
|}.

(** A chip with an empty slot, and no call made yet. *)
Definition bus0 : bus_t := mk_bus _ (mk_sim_chip None "123456") [].

(** A chip whose slot holds a three-byte secret. *)
Definition bus_secret : bus_t := mk_bus _ (mk_sim_chip (Some [1; 2; 3]) "123456") [].

(** A vault as [avp_init] leaves it, and the same vault authenticated. *)
Definition vault0 : Avp.avp_vault_t :=
  Avp.mk_vault _ tt Avp.AVP_SESSION_INACTIVE (replicate 64 CStr.NUL) 0 0
    (CStr.strcpy (replicate 256 CStr.NUL) "default") false.

Definition vault_auth : Avp.avp_vault_t :=
  Avp.mk_vault _ tt Avp.AVP_SESSION_ACTIVE
    (Avp.generate_session_id (replicate 64 CStr.NUL) 64) 0 300
    (CStr.strcpy (replicate 256 CStr.NUL) "default") true.




(** A board whose state is the level of the chip-select pin; the SPI
    peripheral loops the sent bytes back.  The simulated build sets
    [TR01_L1_LEN_MAX] to 256. *)
#[export] Instance sim_hal : Port.Stm32Hal := {|
  Port.board_t := Port.GPIO_PinState;
  Port.SPI_BAUDRATEPRESCALER_32 := 0x40000000;
  Port.LT_USE_INT_PIN := true;
  Port.TR01_L1_LEN_MAX := 256;
  Port.HAL_SPI_Init := fun _ b => (Port.HAL_OK, b);
  Port.HAL_SPI_DeInit := fun _ b => (Port.HAL_OK, b);
  Port.HAL_GPIO_WritePin := fun _ _ st _ => (tt, st);
  Port.HAL_GPIO_ReadPin := fun _ _ b => (b, b);
  Port.HAL_GPIO_Init := fun _ _ b => (tt, b);
  Port.HAL_SPI_TransmitReceive := fun _ tx _ _ b => (Port.HAL_OK, tx, b)
|}.




End Sim.


(** ** The mocked-HAL test of [lt_init]:
       tests/functional_mock/lt_test_mock_invalid_app_fw_init.c

    The test is in the sources; [lt_init], [lt_deinit], the mock HAL and
    the L1/L2 constants it uses are not.  The constants and the CRC are
    an interface ([Tr01Wire]); the test takes the two library functions as
    arguments, and nothing is assumed of them. *)

Module MockInit.

(** Values of lt_l1.h and lt_l2_api_structs.h, and the CRC that
    [add_resp_crc] appends (two bytes over status, length and data). *)
Class Tr01Wire : Type := {
  TR01_L1_CHIP_MODE_READY_bit : Z;
  TR01_L1_CHIP_MODE_STARTUP_bit : Z;
  TR01_L2_STATUS_NO_RESP : Z;
  TR01_L2_STATUS_REQUEST_OK : Z;
  TR01_L2_STARTUP_RSP_LEN : Z;
  crc16 : list Z -> list Z
}.

(** The handle under the mock HAL: the queue of responses the mocked chip
    will give, oldest first, and the rest of the handle. *)
Record lt_handle_t {core_t : Type} : Type := mk_handle {
  mock_queue : list (list Z);
  core : core_t
}.
Arguments lt_handle_t : clear implicits.
Arguments mk_handle {core_t}.





Section Test.
Context `{W : Tr01Wire} {core_t : Type}.
Variable lt_init : lt_handle_t core_t -> lt_ret_t * lt_handle_t core_t.
Variable lt_deinit : lt_handle_t core_t -> lt_ret_t * lt_handle_t core_t.








End Test.

(** Concrete wire values to run the test with: ready is bit 0, startup
    bit 2, and a CRC of two zero bytes. *)
#[export] Instance sim_wire : Tr01Wire := {|
  TR01_L1_CHIP_MODE_READY_bit := 1;
  TR01_L1_CHIP_MODE_STARTUP_bit := 4;
  TR01_L2_STATUS_NO_RESP := 255;
  TR01_L2_STATUS_REQUEST_OK := 1;
  TR01_L2_STARTUP_RSP_LEN := 0;
  crc16 := fun _ => [0; 0]
|}.


End MockInit.


(** ** The secure session and [ping], from the specification

    [lt_ping], the handshake and the L2/L3 layers (libtropic.c,
    libtropic_l2.c, libtropic_l3.c) are not embedded here,
    and neither is the chip.  This module models both ends from sections
    4.3, 6 and 8 of the specification. *)

Module L3Spec.

Abbreviation bytes := (list Z).

(** Modelled from the spec: the crypto capability set of section 6
    ([x25519(priv, pub) -> shared], [sha256], [hkdf(ikm, salt, info) ->
    okm], [aes256gcm_encrypt(key, nonce, aad, plain) -> (cipher, tag)] and
    its inverse), the handshake's protocol-name label, and the two bytes of
    the command set that [ping] needs, none of which the spec puts a
    number on. *)
Class Tr01Env : Type := {
  x25519 : bytes -> bytes -> bytes;
  sha256 : bytes -> bytes;
  hkdf : bytes -> bytes -> bytes -> bytes;
  aes256gcm_encrypt : bytes -> bytes -> bytes -> bytes -> bytes * bytes;
  aes256gcm_decrypt : bytes -> bytes -> bytes -> bytes -> bytes -> option bytes;
  protocol_name : bytes;
  PING_CMD_ID : Z;
  RESULT_OK : Z
}.

(** The X25519 base point, [u = 9]; a public key is the private key
    times the base point. *)
Definition x25519_base : bytes := 9 :: replicate 31 0.
Definition x25519_pub `{Tr01Env} (priv : bytes) : bytes := x25519 priv x25519_base.

(** What the model asks of the primitives: Diffie-Hellman agreement, and
    AES-GCM opening what it sealed, with a ciphertext as long as the
    plaintext and a 16-byte tag. *)
Class Tr01EnvLaws `{Tr01Env} : Prop := {
  x25519_agree : forall a b, x25519 a (x25519_pub b) = x25519 b (x25519_pub a);
  gcm_open_seal : forall k n aad p,
    aes256gcm_decrypt k n aad (aes256gcm_encrypt k n aad p).1
      (aes256gcm_encrypt k n aad p).2 = Some p;
  gcm_cipher_length : forall k n aad p,
    length (aes256gcm_encrypt k n aad p).1 = length p;
  gcm_tag_length : forall k n aad p,
    length (aes256gcm_encrypt k n aad p).2 = 16%nat
}.

(** *** Constants of section 6 and 8 *)

Definition TR01_PING_LEN_MAX : Z := 4096.
Definition L1_MAX_PAYLOAD : nat := 252.
Definition TAG_LEN : nat := 16.
Definition PAIRING_SLOT_MAX : Z := 3.

(** *** Data model of section 3 and error kinds of section 7 *)

(** Modelled from the spec: "L3 session: variant {Idle, Handshaking,
    Established{k_cmd, k_res, n_cmd, n_res}}". *)
Inductive session : Type :=
| Idle
| Handshaking
| Established (k_cmd k_res : bytes) (n_cmd n_res : Z).

Inductive error : Type :=
| ArgumentError
| HandshakeFailed
| NoSession
| TagMismatch
| CounterExhausted
| ChipResult (status : Z)
| LengthMismatch.

Inductive result (A : Type) : Type :=
| Ok (a : A)
| Err (e : error).
Arguments Ok {A}.
Arguments Err {A}.

(** The chip's side: its static private key, the four pairing public
    keys, and its end of the session. *)
Record chip_t : Type := mk_chip {
  chip_static_priv : bytes;
  pairing_pubs : list bytes;
  chip_session : session
}.

(** The two ends of one bus. *)
Record world : Type := mk_world {
  host_session : session;
  the_chip : chip_t
}.

(** *** Framing *)

(** Little-endian encoding of [n] on [len] bytes. *)
Fixpoint le_bytes (len : nat) (n : Z) : bytes :=
  match len with
  | O => []
  | S len' => n mod 256 :: le_bytes len' (n / 256)
  end.

(** Modelled from the spec: "Nonce is the 96-bit little-endian
    representation of [n_cmd]". *)
Definition nonce (counter : Z) : bytes := le_bytes 12 counter.

(** Modelled from the spec: the L3 frame [len:2 LE | ciphertext | tag:16]. *)
Definition l3_frame (ciphertext tag : bytes) : bytes :=
  le_bytes 2 (Z.of_nat (length ciphertext)) ++ ciphertext ++ tag.

Definition parse_l3_frame (frame : bytes) : option (bytes * bytes) :=
  match frame with
  | lo :: hi :: rest =>
      let n := Z.to_nat (lo + 256 * hi) in
      if (length rest =? n + TAG_LEN)%nat then Some (take n rest, drop n rest)
      else None
  | _ => None
  end.

(** Modelled from the spec: an L3 frame travels in L2 chunks of at most
    252 payload bytes, which the receiver concatenates. *)
Fixpoint chunks_fuel (fuel : nat) (data : bytes) : list bytes :=
  match fuel with
  | O => []
  | S fuel' =>
      match data with
      | [] => []
      | _ => take L1_MAX_PAYLOAD data :: chunks_fuel fuel' (drop L1_MAX_PAYLOAD data)
      end
  end.

Definition chunks (data : bytes) : list bytes := chunks_fuel (length data) data.

Definition reassemble (cs : list bytes) : bytes := concat cs.

(** What arrives when [frame] is sent over L2. *)
Definition l2_transfer (frame : bytes) : bytes := reassemble (chunks frame).

(** *** Handshake (section 4.3) *)

(** [HKDF(ck, input) -> (ck', k)]: 64 bytes of output, split in two. *)
Definition hkdf2 `{Tr01Env} (ck input : bytes) : bytes * bytes :=
  let okm := hkdf input ck [] in (take 32 okm, take 32 (drop 32 okm)).

(** The keys of a handshake: the authentication key of the tag, and the
    two directional session keys. *)
Record handshake_keys : Type := mk_keys {
  k_auth : bytes;
  hk_cmd : bytes;
  hk_res : bytes
}.

(** Modelled from the spec, step 4: [ck] is derived iteratively through
    the three Diffie-Hellman results, then split into [k_cmd] and
    [k_res]. *)
Definition derive_keys `{Tr01Env} (dh1 dh2 dh3 : bytes) : handshake_keys :=
  let ck := protocol_name in
  let '(ck, _) := hkdf2 ck dh1 in
  let '(ck, _) := hkdf2 ck dh2 in
  let '(ck, ka) := hkdf2 ck dh3 in
  let '(kc, kr) := hkdf2 ck [] in
  mk_keys ka kc kr.

(** [H = SHA256(protocol_name || ST || EH || pairing_pub_slot || ET)] *)
Definition transcript_hash `{Tr01Env} (ST EH SH ET : bytes) : bytes :=
  sha256 (protocol_name ++ ST ++ EH ++ SH ++ ET).

(** The chip's tag over the transcript, under the authentication key. *)
Definition handshake_tag `{Tr01Env} (keys : handshake_keys) (h : bytes) : bytes :=
  (aes256gcm_encrypt (k_auth keys) (nonce 0) h []).2.

(** Modelled from the spec, steps 2 and 3 on the chip: on
    [Handshake_Req { EH, pairing_slot }] the chip draws its ephemeral key
    [et], derives the keys from its side of the three Diffie-Hellman
    results and answers [{ ET, tag }]; an empty pairing slot is a
    handshake error. *)
Definition chip_handshake `{Tr01Env} (c : chip_t) (et EH : bytes) (slot : Z)
  : option (bytes * bytes) * chip_t :=
  match pairing_pubs c !! Z.to_nat slot with
  | None => (None, mk_chip (chip_static_priv c) (pairing_pubs c) Idle)
  | Some SH =>
      let ET := x25519_pub et in
      let ST := x25519_pub (chip_static_priv c) in
      let keys :=
        derive_keys (x25519 (chip_static_priv c) EH) (x25519 et SH) (x25519 et EH) in
      let tag := handshake_tag keys (transcript_hash ST EH SH ET) in
      (Some (ET, tag),
       mk_chip (chip_static_priv c) (pairing_pubs c)
         (Established (hk_cmd keys) (hk_res keys) 0 0))
  end.

(** Modelled from the spec, steps 1 to 5 on the host: [sh] is the host's
    pairing private key for [slot], [ST] the chip's static public key
    from its certificate, [eh] the ephemeral private key drawn from the
    port RNG and [et] the one the chip draws.  Slots outside 0..3 are an
    argument error before any I/O; a tag that does not verify leaves the
    session idle. *)
Definition start_session `{Tr01Env} (w : world) (sh ST : bytes) (slot : Z) (eh et : bytes)
  : result unit * world :=
  if (slot <? 0) || (PAIRING_SLOT_MAX <? slot) then (Err ArgumentError, w)
  else
    let EH := x25519_pub eh in
    let '(rsp, c) := chip_handshake (the_chip w) et (l2_transfer EH) slot in
    match rsp with
    | None => (Err HandshakeFailed, mk_world Idle c)
    | Some (ET, tag) =>
        let keys := derive_keys (x25519 eh ST) (x25519 sh ET) (x25519 eh ET) in
        let h := transcript_hash ST EH (x25519_pub sh) ET in
        match aes256gcm_decrypt (k_auth keys) (nonce 0) h [] tag with
        | Some [] => (Ok tt, mk_world (Established (hk_cmd keys) (hk_res keys) 0 0) c)
        | _ => (Err HandshakeFailed, mk_world Idle c)
        end
    end.

(** *** Framed commands (section 4.3) and [ping] *)

Definition COUNTER_MAX : Z := 2 ^ 64 - 1.

(** Modelled from the spec: the chip's handling of one encrypted command.
    It opens the frame under [k_cmd] and [nonce(n_cmd)]; for [ping] the
    result is the status byte followed by the payload it received, sealed
    under [k_res] and [nonce(n_res)]; both counters advance.  A frame that
    does not open ends the session. *)
Definition chip_command `{Tr01Env} (c : chip_t) (frame : bytes)
  : option bytes * chip_t :=
  let idle := mk_chip (chip_static_priv c) (pairing_pubs c) Idle in
  match chip_session c with
  | Established kc kr nc nr =>
      match parse_l3_frame frame with
      | Some (ct, tag) =>
          match aes256gcm_decrypt kc (nonce nc) [] ct tag with
          | Some (cmd :: payload) =>
              if cmd =? PING_CMD_ID then
                let sealed := aes256gcm_encrypt kr (nonce nr) [] (RESULT_OK :: payload) in
                (Some (l3_frame sealed.1 sealed.2),
                 mk_chip (chip_static_priv c) (pairing_pubs c)
                   (Established kc kr (nc + 1) (nr + 1)))
              else (None, idle)
          | _ => (None, idle)
          end
      | None => (None, idle)
      end
  | _ => (None, c)
  end.

(** Modelled from the spec: [ping(buf <= 4096) -> echoed buf].  The
    length is checked before any I/O; the command is [cmd_id || payload]
    sealed under [k_cmd] and [nonce(n_cmd)] and framed; the reply is
    opened under [k_res] and [nonce(n_res)]; after a successful send and
    receive both counters are incremented.  A reply that does not open
    terminates the session; a reply of another length is an error. *)
Definition lt_ping `{Tr01Env} (w : world) (msg : bytes) : result bytes * world :=
  if TR01_PING_LEN_MAX <? Z.of_nat (length msg) then (Err ArgumentError, w)
  else
    match host_session w with
    | Established kc kr nc nr =>
        if (COUNTER_MAX <=? nc) || (COUNTER_MAX <=? nr)
        then (Err CounterExhausted, mk_world Idle (the_chip w))
        else
          let sealed := aes256gcm_encrypt kc (nonce nc) [] (PING_CMD_ID :: msg) in
          let '(rsp, c) :=
            chip_command (the_chip w) (l2_transfer (l3_frame sealed.1 sealed.2)) in
          match rsp with
          | None => (Err NoSession, mk_world Idle c)
          | Some rframe =>
              match parse_l3_frame (l2_transfer rframe) with
              | Some (ct, tag) =>
                  match aes256gcm_decrypt kr (nonce nr) [] ct tag with
                  | Some (status :: payload) =>
                      if negb (status =? RESULT_OK)
                      then (Err (ChipResult status),
                            mk_world (Established kc kr (nc + 1) (nr + 1)) c)
                      else if negb (length payload =? length msg)%nat
                      then (Err LengthMismatch,
                            mk_world (Established kc kr (nc + 1) (nr + 1)) c)
                      else (Ok payload,
                            mk_world (Established kc kr (nc + 1) (nr + 1)) c)
                  | _ => (Err TagMismatch, mk_world Idle c)
                  end
              | None => (Err TagMismatch, mk_world Idle c)
              end
          end
    | _ => (Err NoSession, w)
    end.

(** The chip holds the public half of the host's pairing key in [slot],
    and the host holds the chip's static public key. *)
Definition provisioned `{Tr01Env} (w : world) (sh ST : bytes) (slot : Z) : Prop :=
  pairing_pubs (the_chip w) !! Z.to_nat slot = Some (x25519_pub sh)
  /\ ST = x25519_pub (chip_static_priv (the_chip w)).

(** Host and chip hold the same established session. *)
Definition in_sync (w : world) (kc kr : bytes) (nc nr : Z) : Prop :=
  host_session w = Established kc kr nc nr
  /\ chip_session (the_chip w) = Established kc kr nc nr.

(** *** A toy instance of the primitives, to run the model *)

Definition toy_sum (l : bytes) : Z := foldr Z.add 0 l.

#[export] Instance toy_env : Tr01Env := {|
  x25519 := fun priv pub => [toy_sum priv + toy_sum pub];
  sha256 := fun m => [toy_sum m mod 256];
  hkdf := fun ikm salt info => replicate 64 ((toy_sum ikm + toy_sum salt) mod 256);
  aes256gcm_encrypt := fun k n aad p =>
    (map (fun b => Z.lxor b (toy_sum k mod 256)) p, replicate 16 (toy_sum aad mod 256));
  aes256gcm_decrypt := fun k n aad c t =>
    if bool_decide (t = replicate 16 (toy_sum aad mod 256))
    then Some (map (fun b => Z.lxor b (toy_sum k mod 256)) c) else None;
  protocol_name := [78; 111; 105; 115; 101];
  PING_CMD_ID := 1;
  RESULT_OK := 195
|}.

Definition toy_sh : bytes := [11; 22; 33].
Definition toy_chip_priv : bytes := [5; 6; 7].

(** A chip paired with [toy_sh] in slot 0, and an idle host. *)
Definition world0 : world :=
  mk_world Idle (mk_chip toy_chip_priv [x25519_pub toy_sh] Idle).

End L3Spec.


(** ** The vault layer, continued: the remaining operations of
       avp/avp_tropic.c *)

Module AvpMore.
Import CStr Avp.
Local Open Scope st_scope.

Definition AVP_VERSION : string := "0.1.0".

(** [avp_discover_response_t]; [version] and [conformance] are
    [char[16]]. *)
Record avp_discover_response_t : Type := mk_discover {
  version : list ascii;
  conformance : list ascii;
  attestation : bool;
  rotation : bool;
  max_secrets : Z
}.

(** [memset(response, 0, sizeof(avp_discover_response_t))] *)
Definition discover_zeroed : avp_discover_response_t :=
  mk_discover (replicate 16 NUL) (replicate 16 NUL) false false 0.

Definition avp_discover `{Libtropic} (vault : option avp_vault_t)
    (response : option avp_discover_response_t)
  : Bus (avp_ret_t * option avp_discover_response_t) :=
  match vault, response with
  | Some _, Some _ =>
      let r := discover_zeroed in
      ret (AVP_OK,
           Some (mk_discover (strncpy (version r) AVP_VERSION (16 - 1))
                   (strncpy (conformance r) "hardware" (16 - 1))
                   true true AVP_TROPIC_KEY_SLOTS))
  | _, _ => ret (AVP_ERR_INTERNAL, response)
  end.

(** [avp_attestation_t]: [manufacturer], [model] and [serial] are
    [char[64]], [firmware_version] is [char[32]], [certificate] is
    [uint8_t[2048]]. *)
Record avp_attestation_t : Type := mk_attestation {
  verified : bool;
  manufacturer : list ascii;
  model : list ascii;
  firmware_version : list ascii;
  serial : list ascii;
  certificate : list Z;
  certificate_len : Z
}.

(** [memset(attestation, 0, sizeof(avp_attestation_t))] *)
Definition attestation_zeroed : avp_attestation_t :=
  mk_attestation false (replicate 64 NUL) (replicate 64 NUL) (replicate 32 NUL)
    (replicate 64 NUL) (replicate 2048 0) 0.

Definition avp_hw_attest `{Libtropic} (vault : option avp_vault_t) (name : option string)
    (attestation_arg : option avp_attestation_t)
  : Bus (avp_ret_t * option avp_attestation_t) :=
  match vault, name, attestation_arg with
  | Some v, Some _, Some _ =>
      if negb (authenticated v) then ret (AVP_ERR_NOT_INITIALIZED, attestation_arg)
      else
        (* Generate attestation proving secret is in TROPIC01 hardware *)
        let a := attestation_zeroed in
        ret (AVP_OK,
             Some (mk_attestation true
                     (strncpy (manufacturer a) "Tropic Square" (64 - 1))
                     (strncpy (model a) "TROPIC01" (64 - 1))
                     (firmware_version a) (serial a) (certificate a)
                     (certificate_len a)))
  | _, _, _ => ret (AVP_ERR_INTERNAL, attestation_arg)
  end.

(** The one libtropic entry point of [avp_tropic.c] beside those of
    [Libtropic]: [lt_get_info_chip], which fills an [lt_chip_info_t]. *)
Class LibtropicInfo `{Libtropic} : Type := {
  lt_chip_info_t : Type;
  lt_get_info_chip :
    lt_handle_t -> chip_t -> lt_ret_t * lt_handle_t * lt_chip_info_t * chip_t
}.

(** The bus, and the number of [lt_get_info_chip] calls made so far. *)
Record info_bus_t `{Libtropic} : Type := mk_info_bus {
  info_bus : bus_t;
  info_calls : nat
}.

Definition avp_hw_challenge `{LibtropicInfo} (vault : option avp_vault_t)
    (attestation_arg : option avp_attestation_t)
  : St info_bus_t (avp_ret_t * option avp_vault_t * option avp_attestation_t) :=
  match vault, attestation_arg with
  | Some v, Some _ =>
      let a := attestation_zeroed in
      (* Get TROPIC01 device info *)
      fun ib =>
        let '(lt_ret, h, _, ch) := lt_get_info_chip (lt_handle v) (chip (info_bus ib)) in
        let ib' :=
          mk_info_bus _ (mk_bus _ ch (calls (info_bus ib))) (S (info_calls ib)) in
        let v := set_lt_handle v h in
        if negb (lt_is_ok lt_ret) then (AVP_ERR_HARDWARE_ERROR, Some v, Some a, ib')
        else
          (AVP_OK, Some v,
           Some (mk_attestation true
                   (strncpy (manufacturer a) "Tropic Square" (64 - 1))
                   (strncpy (model a) "TROPIC01" (64 - 1))
                   (strncpy (firmware_version a) "1.0.0" (32 - 1))
                   (serial a) (certificate a) (certificate_len a)),
           ib')
  | _, _ => ret (AVP_ERR_INTERNAL, vault, attestation_arg)
  end.

(** The value of each enumerator of [avp_ret_t]. *)
Definition avp_ret_code (r : avp_ret_t) : Z :=
  match r with
  | AVP_OK => 0
  | AVP_ERR_NOT_INITIALIZED => 1
  | AVP_ERR_AUTHENTICATION_FAILED => 2
  | AVP_ERR_SESSION_EXPIRED => 3
  | AVP_ERR_SECRET_NOT_FOUND => 4
  | AVP_ERR_CAPACITY_EXCEEDED => 5
  | AVP_ERR_INVALID_NAME => 6
  | AVP_ERR_HARDWARE_ERROR => 7
  | AVP_ERR_CRYPTO_ERROR => 8
  | AVP_ERR_INTERNAL => 9
  end.

(** [avp_strerror], on the integer an [avp_ret_t] is in C, so that the
    [default] branch has inputs. *)
Definition avp_strerror (ret_code : Z) : string :=
  if ret_code =? avp_ret_code AVP_OK then "OK"
  else if ret_code =? avp_ret_code AVP_ERR_NOT_INITIALIZED then "Not initialized"
  else if ret_code =? avp_ret_code AVP_ERR_AUTHENTICATION_FAILED
  then "Authentication failed"
  else if ret_code =? avp_ret_code AVP_ERR_SESSION_EXPIRED then "Session expired"
  else if ret_code =? avp_ret_code AVP_ERR_SECRET_NOT_FOUND then "Secret not found"
  else if ret_code =? avp_ret_code AVP_ERR_CAPACITY_EXCEEDED then "Capacity exceeded"
  else if ret_code =? avp_ret_code AVP_ERR_INVALID_NAME then "Invalid secret name"
  else if ret_code =? avp_ret_code AVP_ERR_HARDWARE_ERROR then "Hardware error"
  else if ret_code =? avp_ret_code AVP_ERR_CRYPTO_ERROR then "Cryptographic error"
  else if ret_code =? avp_ret_code AVP_ERR_INTERNAL then "Internal error"
  else "Unknown error".

(** *** The name requirements of the API reference

    docs/avp/index.md, under [avp_store]: "Length: 1-255 characters;
    First character: [A-Za-z]; Subsequent: [A-Za-z0-9_.-]". *)

Definition letters : string :=
  "ABCDEFGHIJKLMNOPQRSTUVWXYZabcdefghijklmnopqrstuvwxyz".

Definition name_alphabet : string :=
  "ABCDEFGHIJKLMNOPQRSTUVWXYZabcdefghijklmnopqrstuvwxyz0123456789_.-".

Definition meets_name_requirements (name : list ascii) : Prop :=
  match name with
  | [] => False
  | c :: rest =>
      (length name <= 255)%nat
      /\ In c (list_ascii_of_string letters)
      /\ Forall (fun d => In d (list_ascii_of_string name_alphabet)) rest
  end.

(** *** Sequences of operations *)

(** One call on a vault, with its arguments. *)
Inductive avp_op : Type :=
| OpAuthenticate (workspace_arg pin : option string) (ttl_seconds : Z)
| OpStore (name : option string) (value : option (list Z)) (value_len : Z)
| OpRetrieve (name : option string) (value : option (list Z)) (value_len : option Z)
| OpDelete (name : option string) (deleted : option bool)
| OpList (max_secrets : Z) (count : option Z)
| OpHwSign (key_name : option string) (data : option (list Z)) (data_len : Z)
    (signature : option (list Z)) (signature_len : option Z)
| OpHwAttest (name : option string) (attestation_arg : option avp_attestation_t)
| OpDeinit.

(** The commands that need a session: all but [OpAuthenticate] and
    [OpDeinit]. *)
Definition is_command (op : avp_op) : bool :=
  match op with
  | OpAuthenticate _ _ _ | OpDeinit => false
  | _ => true
  end.

(** Runs one call: its return code and the vault afterwards. *)
Definition run_op `{Libtropic} (op : avp_op) (vault : option avp_vault_t)
  : Bus (avp_ret_t * option avp_vault_t) :=
  match op with
  | OpAuthenticate ws pin ttl => avp_authenticate vault ws pin ttl
  | OpStore name value len => avp_store vault name value len
  | OpRetrieve name value len =>
      do '(r, v, _) <- avp_retrieve vault name value len ;; ret (r, v)
  | OpDelete name deleted =>
      do '(r, v, _) <- avp_delete vault name deleted ;; ret (r, v)
  | OpList max_secrets count =>
      do '(r, v, _) <- avp_list vault max_secrets count ;; ret (r, v)
  | OpHwSign key_name data data_len signature signature_len =>
      do '(r, v, _) <- avp_hw_sign vault key_name data data_len signature signature_len ;;
      ret (r, v)
  | OpHwAttest name att =>
      do '(r, _) <- avp_hw_attest vault name att ;; ret (r, vault)
  | OpDeinit => avp_deinit vault
  end.

(** Runs the calls in order; the return codes come out in the same order. *)
Fixpoint run_ops `{Libtropic} (ops : list avp_op) (vault : option avp_vault_t)
  : Bus (list avp_ret_t * option avp_vault_t) :=
  match ops with
  | [] => ret ([], vault)
  | op :: ops' =>
      do '(r, v) <- run_op op vault ;;
      do '(rs, v') <- run_ops ops' v ;;
      ret (r :: rs, v')
  end.

(** What every vault that went through [avp_init] satisfies: the arrays
    have their declared sizes, the workspace ends in a NUL byte, and the
    vault is either authenticated with an active session or neither. *)
Definition vault_consistent `{Libtropic} (v : avp_vault_t) : Prop :=
  vault_sized v
  /\ workspace v !! 255%nat = Some NUL
  /\ ((authenticated v = true /\ session_state v = AVP_SESSION_ACTIVE)
      \/ (authenticated v = false /\ session_state v = AVP_SESSION_INACTIVE)).

End AvpMore.

(** ** The STM32U5 port, continued: random numbers, delay and reset *)

Module PortMore.
Import Port.
Local Open Scope st_scope.

(** The HAL functions of the port beside those of [Stm32Hal]:
    [HAL_RNG_GenerateRandomNumber] (handle; status and the 32-bit number)
    and [HAL_Delay]. *)
Class Stm32HalMore `{Stm32Hal} : Type := {
  HAL_RNG_GenerateRandomNumber : Z -> board_t -> HAL_StatusTypeDef * Z * board_t;
  HAL_Delay : Z -> board_t -> unit * board_t
}.

(** A HAL call of the port: one of [hal_call], a random number draw or
    a delay. *)
Inductive port_call : Type :=
| Call_base (c : hal_call)
| Call_HAL_RNG_GenerateRandomNumber (hrng : Z)
| Call_HAL_Delay (ms : Z).

(** The board and the log of all HAL calls made so far (oldest first). *)
Record mcu_more_t `{Stm32Hal} : Type := mk_mcu_more {
  more_board : board_t;
  port_calls : list port_call
}.

Definition hal_more `{Stm32Hal} {A : Type} (c : port_call) (f : board_t -> A * board_t)
  : St mcu_more_t A :=
  fun m => let (a, b) := f (more_board m) in (a, mk_mcu_more _ b (port_calls m ++ [c])).

(** The bytes of a [uint32_t] in memory, lowest first (the Cortex-M
    cores are little-endian). *)
Definition uint32_bytes (d : Z) : list Z :=
  [d mod 256; d / 256 mod 256; d / 65536 mod 256; d / 16777216 mod 256].

(** The [while (bytes_left > 0)] loop that [lt_port_random_bytes] and
    [wolfcrypt_custom_seed_gen] share: a draw, then
    [memcpy(buff_ptr, &random_data, copy_size)] at the write position
    [off].  The result is [Some (true, _)] when the loop ran to its end,
    [Some (false, _)] when a draw failed, and [None] when [fuel]
    iterations did not suffice. *)
Fixpoint rng_fill `{Stm32HalMore} (fuel : nat) (hrng : Z) (bytes_left off : nat)
    (buff : list Z) : St mcu_more_t (option (bool * list Z)) :=
  match bytes_left with
  | O => ret (Some (true, buff))
  | S _ =>
      match fuel with
      | O => ret None
      | S fuel' =>
          do '(r, random_data) <-
            hal_more (Call_HAL_RNG_GenerateRandomNumber hrng)
              (HAL_RNG_GenerateRandomNumber hrng) ;;
          if negb (bool_decide (r = HAL_OK)) then ret (Some (false, buff))
          else
            let copy_size := if (bytes_left <? 4)%nat then bytes_left else 4%nat in
            rng_fill fuel' hrng (bytes_left - copy_size) (off + copy_size)
              (store_rx off (take copy_size (uint32_bytes random_data)) buff)
      end
  end.

(** [rng_handle] is the member of the device structure of that name, 0
    for NULL; [buff] is the memory at the caller's pointer.  The loop is
    given [count] iterations. *)
Definition lt_port_random_bytes `{Stm32HalMore} (rng_handle : Z) (buff : list Z)
    (count : nat) : St mcu_more_t (option (lt_ret_t * list Z)) :=
  if rng_handle =? 0 then ret (Some (LT_FAIL, buff))
  else
    do res <- rng_fill count rng_handle count 0 buff ;;
    ret (match res with
         | Some (true, b) => Some (LT_OK, b)
         | Some (false, b) => Some (LT_FAIL, b)
         | None => None
         end).

(** [RNG_FAILURE_E] of wolfSSL's error-crypt.h. *)
Definition RNG_FAILURE_E : Z := -199.

(** [wolfcrypt_custom_seed_gen] of
    tests/functional/stm32/nucleo_f439zi/Src/wolfcrypt/wolfcrypt_platform.c;
    [RNGHandle] is the address of the global handle. *)
Definition wolfcrypt_custom_seed_gen `{Stm32HalMore} (RNGHandle : Z) (output : list Z)
    (sz : nat) : St mcu_more_t (option (Z * list Z)) :=
  do res <- rng_fill sz RNGHandle sz 0 output ;;
  ret (match res with
       | Some (true, b) => Some (0, b)
       | Some (false, b) => Some (RNG_FAILURE_E, b)
       | None => None
       end).

Definition LT_STM32U5_RESET_PULSE_MS : Z := 10.
Definition LT_STM32U5_RESET_DELAY_MS : Z := 50.

Definition lt_port_delay `{Stm32HalMore} (s2 : lt_l2_state_t) (ms : Z)
  : St mcu_more_t lt_ret_t :=
  do _ <- hal_more (Call_HAL_Delay ms) (HAL_Delay ms) ;;
  ret LT_OK.

Definition lt_port_hw_reset `{Stm32HalMore} (s2 : lt_l2_state_t) : St mcu_more_t lt_ret_t :=
  let dev := device s2 in
  if (rst_gpio_port dev =? 0) || (rst_gpio_pin dev =? 0) then ret LT_FAIL
  else
    (* Assert reset (active low) *)
    do _ <- hal_more
              (Call_base (Call_HAL_GPIO_WritePin (rst_gpio_port dev) (rst_gpio_pin dev)
                            GPIO_PIN_RESET))
              (HAL_GPIO_WritePin (rst_gpio_port dev) (rst_gpio_pin dev) GPIO_PIN_RESET) ;;
    do _ <- hal_more (Call_HAL_Delay LT_STM32U5_RESET_PULSE_MS)
              (HAL_Delay LT_STM32U5_RESET_PULSE_MS) ;;
    (* Release reset *)
    do _ <- hal_more
              (Call_base (Call_HAL_GPIO_WritePin (rst_gpio_port dev) (rst_gpio_pin dev)
                            GPIO_PIN_SET))
              (HAL_GPIO_WritePin (rst_gpio_port dev) (rst_gpio_pin dev) GPIO_PIN_SET) ;;
    do _ <- hal_more (Call_HAL_Delay LT_STM32U5_RESET_DELAY_MS)
              (HAL_Delay LT_STM32U5_RESET_DELAY_MS) ;;
    ret LT_OK.

(** The numbers the first [n] draws deliver, and the board after them. *)
Fixpoint rng_draws `{Stm32HalMore} (n : nat) (hrng : Z) (brd : board_t)
  : list (HAL_StatusTypeDef * Z) * board_t :=
  match n with
  | O => ([], brd)
  | S n' =>
      let '(r, d, brd') := HAL_RNG_GenerateRandomNumber hrng brd in
      let '(rest, brd'') := rng_draws n' hrng brd' in
      ((r, d) :: rest, brd'')
  end.

(** The bytes that a list of draws delivers, in memory order. *)
Definition drawn_bytes (draws : list (HAL_StatusTypeDef * Z)) : list Z :=
  concat (map (fun rd => uint32_bytes rd.2) draws).

(** The calls [lt_port_init] makes when [HAL_SPI_Init] succeeds, for the
    device as it is after the SPI configuration. *)
Definition init_calls `{Stm32Hal} (dev : lt_dev_stm32u5_tropic_click_t) : list hal_call :=
  [ Call_HAL_SPI_Init (spi_handle dev);
    Call_HAL_GPIO_WritePin (spi_cs_gpio_port dev) (spi_cs_gpio_pin dev) GPIO_PIN_SET;
    Call_HAL_GPIO_Init (spi_cs_gpio_port dev)
      (mk_gpio_init (spi_cs_gpio_pin dev) GPIO_MODE_OUTPUT_PP GPIO_PULLUP
         GPIO_SPEED_FREQ_HIGH) ]
  ++ (if LT_USE_INT_PIN
      then [Call_HAL_GPIO_Init (int_gpio_port dev)
              (mk_gpio_init (int_gpio_pin dev) GPIO_MODE_INPUT GPIO_NOPULL
                 GPIO_SPEED_FREQ_LOW)]
      else [])
  ++ (if (rst_gpio_port dev =? 0) || (rst_gpio_pin dev =? 0) then []
      else [Call_HAL_GPIO_WritePin (rst_gpio_port dev) (rst_gpio_pin dev) GPIO_PIN_SET;
            Call_HAL_GPIO_Init (rst_gpio_port dev)
              (mk_gpio_init (rst_gpio_pin dev) GPIO_MODE_OUTPUT_PP GPIO_PULLUP
                 GPIO_SPEED_FREQ_LOW)]).

(** A simulated RNG for the simulated board: it always succeeds and
    returns the same number. *)
#[export] Instance sim_hal_more : @Stm32HalMore Sim.sim_hal := {|
  HAL_RNG_GenerateRandomNumber := fun _ b => (HAL_OK, 0x04030201, b);
  HAL_Delay := fun _ b => (tt, b)
|}.

Definition mcu_more0 : @mcu_more_t Sim.sim_hal := @mk_mcu_more Sim.sim_hal GPIO_PIN_SET [].

End PortMore.

(** ** The console of the functional-test firmware:
       tests/functional/stm32/nucleo_u545re_q/Src/main.c *)

Module Nucleo.
Local Open Scope st_scope.

(** [HAL_UART_Transmit(&huart1, data, size, timeout)]: the calls made so
    far (oldest first).  The code discards the status. *)
Record uart_call : Type := mk_uart_call {
  tx_data : list Z;
  tx_size : Z;
  tx_timeout : Z
}.

Definition HAL_UART_Transmit (data : list Z) (size timeout : Z)
  : St (list uart_call) unit :=
  fun log => (tt, log ++ [mk_uart_call data size timeout]).

(** [PUTCHAR_PROTOTYPE], which is [__io_putchar] under GCC: [ch] is an
    [int]; sending one byte from its address sends its lowest byte. *)
Definition __io_putchar (ch : Z) : St (list uart_call) Z :=
  do _ <- (if ch =? 10 then HAL_UART_Transmit [13; 10] 2 65535
           else HAL_UART_Transmit [ch mod 256] 1 65535) ;;
  ret ch.

(** [printf] through the retargeted [putchar]: one call per character. *)
Fixpoint put_chars (s : list Z) : St (list uart_call) unit :=
  match s with
  | [] => ret tt
  | ch :: s' => do _ <- __io_putchar ch ;; put_chars s'
  end.

(** The bytes on the line. *)
Definition wire (log : list uart_call) : list Z :=
  concat (map (fun c => take (Z.to_nat (tx_size c)) (tx_data c)) log).

(** What a serial monitor does with the line: CR LF becomes LF. *)
Fixpoint crlf_to_lf (l : list Z) : list Z :=
  match l with
  | [] => []
  | c :: r =>
      match r with
      | d :: r' => if (c =? 13) && (d =? 10) then 10 :: crlf_to_lf r'
                   else c :: crlf_to_lf r
      | [] => [c]
      end
  end.

End Nucleo.

(** * Properties of the vault layer *)

Section AvpProperties.
Context `{L : Libtropic}.
Import CStr Avp.
Local Open Scope string_scope.

(** Unfolds the state-passing plumbing of an operation. *)
Ltac run_st := unfold bind, ret, invoke; cbn [fst snd chip calls].

Local Arguments generate_session_id : simpl never.
Local Arguments strcpy : simpl never.
Local Arguments strncpy : simpl never.
Local Arguments memset0 : simpl never.

Lemma memset0_all_zero (buf : list ascii) : all_zero (memset0 buf).
Proof.
  unfold all_zero, memset0. induction (length buf) as [|n IH]; cbn.
  - constructor.
  - constructor; [reflexivity | exact IH].
Qed.

Lemma memset0_length (buf : list ascii) : length (memset0 buf) = length buf.
Proof. unfold memset0. apply length_replicate. Qed.

Lemma memset0_idem (buf : list ascii) : memset0 (memset0 buf) = memset0 buf.
Proof. unfold memset0. now rewrite length_replicate. Qed.

(** The session id written into a 64-byte buffer does not depend on what
    the buffer held. *)
Lemma generate_session_id_fixed (buf : list ascii) :
  length buf = 64%nat ->
  string_of_buf (generate_session_id buf 64)
  = "avp_sess_jklmnopqrstuvwxyzABCDEFGHIJKLMNO".
Proof.
  intros Hlen.
  do 64 (destruct buf as [|? buf]; [discriminate Hlen|]).
  destruct buf; [|discriminate Hlen].
  vm_compute. reflexivity.
Qed.

(** What [avp_authenticate] returns on a non-NULL vault is decided by the
    login alone. *)
Lemma avp_authenticate_ok_inv (v v' : avp_vault_t) (ws pin : option string) (ttl : Z)
    (b b' : bus_t) :
  avp_authenticate (Some v) ws pin ttl b = (AVP_OK, Some v', b') ->
  session_id v' = generate_session_id (session_id v) 64.
Proof.
  unfold avp_authenticate. run_st.
  destruct pin as [p|]; run_st.
  - destruct (lt_login _ _ _ _) as [[r h] ch]. run_st.
    destruct (lt_is_ok r); cbn; intros E; inversion E; subst; cbn.
    destruct ws; reflexivity.
  - cbn. intros E; inversion E; subst; cbn. destruct ws; reflexivity.
Qed.

(** With a PIN, the login is the one libtropic call made, and its result
    decides between [AVP_OK] and [AVP_ERR_AUTHENTICATION_FAILED]. *)
Lemma avp_authenticate_pin_calls_login (v : avp_vault_t) (ws : option string)
    (p : string) (ttl : Z) (b : bus_t) :
  let r := avp_authenticate (Some v) ws (Some p) ttl b in
  calls r.2 = (calls b ++ [Call_lt_login p (Z.of_nat (strlen p))])%list
  /\ (r.1.1 = AVP_OK \/ r.1.1 = AVP_ERR_AUTHENTICATION_FAILED).
Proof.
  cbv zeta. unfold avp_authenticate. run_st.
  destruct (lt_login _ _ _ _) as [[r h] ch]. run_st.
  destruct (lt_is_ok r); cbn; auto.
Qed.

(** C1: with [pin == NULL], [avp_authenticate] on any vault makes no
    libtropic call at all (so [lt_login] is never invoked and the chip is
    not touched), returns [AVP_OK], and leaves the vault authenticated
    with an active session. *)
Theorem avp_authenticate_null_pin_no_login (v : avp_vault_t) (ws : option string)
    (ttl : Z) (b : bus_t) :
  exists v',
    avp_authenticate (Some v) ws None ttl b = (AVP_OK, Some v', b)
    /\ authenticated v' = true
    /\ session_state v' = AVP_SESSION_ACTIVE
    /\ avp_session_active (Some v') = true.
Proof.
  unfold avp_authenticate. run_st. cbn.
  eexists. split; [reflexivity|]. cbn. auto.
Qed.

(** C6: after [avp_deinit] on a non-NULL vault, the 64 bytes of
    [session_id] are all zero, the session is inactive and the vault is
    not authenticated; the call returns [AVP_OK] whatever [lt_deinit]
    returned. *)
Theorem avp_deinit_zeroes_session (v : avp_vault_t) (b : bus_t) :
  exists v' b',
    avp_deinit (Some v) b = (AVP_OK, Some v', b')
    /\ all_zero (session_id v')
    /\ length (session_id v') = length (session_id v)
    /\ session_state v' = AVP_SESSION_INACTIVE
    /\ authenticated v' = false.
Proof.
  unfold avp_deinit. run_st.
  destruct (lt_deinit _ _) as [[r h] ch]. run_st.
  do 2 eexists. split; [reflexivity|]. cbn.
  auto using memset0_all_zero, memset0_length.
Qed.

(** C7: a second [avp_deinit] right after the first also returns
    [AVP_OK], and leaves every field of the vault above the libtropic
    handle as the first call left it: [session_id] zeroed, session
    inactive, not authenticated. *)
Theorem avp_deinit_twice (v : avp_vault_t) (b : bus_t) :
  exists v1 b1 v2 b2,
    avp_deinit (Some v) b = (AVP_OK, Some v1, b1)
    /\ avp_deinit (Some v1) b1 = (AVP_OK, Some v2, b2)
    /\ session_id v2 = session_id v1
    /\ all_zero (session_id v2)
    /\ session_state v2 = AVP_SESSION_INACTIVE
    /\ session_state v1 = AVP_SESSION_INACTIVE
    /\ authenticated v2 = false
    /\ authenticated v1 = false
    /\ workspace v2 = workspace v1
    /\ session_ttl v2 = session_ttl v1
    /\ session_created_at v2 = session_created_at v1.
Proof.
  unfold avp_deinit. run_st.
  destruct (lt_deinit (lt_handle v) (chip b)) as [[r1 h1] ch1]. run_st.
  destruct (lt_deinit h1 ch1) as [[r2 h2] ch2] eqn:E2.
  do 4 eexists. split; [reflexivity|]. cbn. rewrite E2. run_st.
  split; [reflexivity|]. cbn.
  rewrite memset0_idem.
  repeat split; auto using memset0_all_zero.
Qed.

(** C10: any two successful calls of [avp_authenticate], on any vaults
    and with any arguments, leave the same session id string: the prefix
    [avp_sess_] followed by the 32 characters [charset[9 .. 40]]. *)
Theorem session_id_is_constant (v1 v2 v1' v2' : avp_vault_t)
    (ws1 ws2 pin1 pin2 : option string) (ttl1 ttl2 : Z) (b1 b2 b1' b2' : bus_t) :
  vault_sized v1 -> vault_sized v2 ->
  avp_authenticate (Some v1) ws1 pin1 ttl1 b1 = (AVP_OK, Some v1', b1') ->
  avp_authenticate (Some v2) ws2 pin2 ttl2 b2 = (AVP_OK, Some v2', b2') ->
  string_of_buf (session_id v1') = string_of_buf (session_id v2')
  /\ string_of_buf (session_id v1')
     = AVP_SESSION_PREFIX ++ "jklmnopqrstuvwxyzABCDEFGHIJKLMNO"
  /\ String.length "jklmnopqrstuvwxyzABCDEFGHIJKLMNO" = AVP_SESSION_ID_LEN
  /\ "jklmnopqrstuvwxyzABCDEFGHIJKLMNO"
     = string_of_list_ascii (map charset_at (seq 9 32)).
Proof.
  intros [S1 _] [S2 _] A1 A2.
  apply avp_authenticate_ok_inv in A1, A2.
  rewrite A1, A2, !generate_session_id_fixed by assumption.
  repeat split.
Qed.

(** [avp_delete] never looks at the name: on an authenticated vault it
    erases slot 0 for a valid and for an invalid name alike. *)
Lemma avp_delete_ignores_name (v : avp_vault_t) (name : string) (deleted : option bool)
    (b : bus_t) :
  authenticated v = true ->
  calls (avp_delete (Some v) (Some name) deleted b).2
  = (calls b ++ [Call_lt_r_mem_data_erase 0])%list.
Proof.
  intros Ha. unfold avp_delete. rewrite Ha. cbn [negb]. run_st.
  destruct (lt_r_mem_data_erase _ _ _) as [[r h] ch]. reflexivity.
Qed.

(** A NULL vault or name is turned away with [AVP_ERR_INTERNAL] by the
    three slot commands, with no libtropic call made. *)
Lemma null_arguments_rejected_before_io (vault : option avp_vault_t)
    (name : option string) (val : option (list Z)) (len : Z) (rlen : option Z)
    (deleted : option bool) (b : bus_t) :
  vault = None \/ name = None ->
  avp_store vault name val len b = (AVP_ERR_INTERNAL, vault, b)
  /\ avp_retrieve vault name val rlen b
     = (AVP_ERR_INTERNAL, vault, mk_retrieve_out val rlen, b)
  /\ avp_delete vault name deleted b = (AVP_ERR_INTERNAL, vault, deleted, b).
Proof.
  intros [-> | ->]; [|destruct vault]; repeat split.
Qed.

(** C3, as the code has it: [avp_store] and [avp_retrieve] turn away an
    invalid secret name, and [avp_store] a value longer than
    [AVP_MAX_SECRET_VALUE_LEN], before any libtropic call: the vault, the
    outputs, the chip and the call log are as before.  The error is
    [AVP_ERR_NOT_INITIALIZED] on a vault that is not authenticated, and
    otherwise [AVP_ERR_INVALID_NAME] for the name, [AVP_ERR_INTERNAL] for
    the length. *)
Theorem store_retrieve_reject_before_io (v : avp_vault_t) (name : string)
    (val buf : list Z) (len rlen : Z) (b : bus_t) :
  validate_secret_name (Some name) = false \/ AVP_MAX_SECRET_VALUE_LEN < len ->
  (exists e,
     avp_store (Some v) (Some name) (Some val) len b = (e, Some v, b)
     /\ e = (if negb (authenticated v) then AVP_ERR_NOT_INITIALIZED
             else if negb (validate_secret_name (Some name)) then AVP_ERR_INVALID_NAME
             else AVP_ERR_INTERNAL)
     /\ e <> AVP_OK)
  /\ (validate_secret_name (Some name) = false ->
      exists e,
        avp_retrieve (Some v) (Some name) (Some buf) (Some rlen) b
        = (e, Some v, mk_retrieve_out (Some buf) (Some rlen), b)
        /\ e = (if negb (authenticated v) then AVP_ERR_NOT_INITIALIZED
                else AVP_ERR_INVALID_NAME)
        /\ e <> AVP_OK).
Proof.
  intros Hbad. split.
  - unfold avp_store.
    destruct (authenticated v); cbn [negb].
    + destruct (validate_secret_name (Some name)) eqn:Hn; cbn [negb].
      * destruct Hbad as [Hbad | Hbad]; [discriminate|].
        destruct (Z.ltb_spec AVP_MAX_SECRET_VALUE_LEN len); [|lia].
        eexists. repeat split. discriminate.
      * eexists. repeat split. discriminate.
    + eexists. repeat split. discriminate.
  - intros Hn. unfold avp_retrieve. rewrite Hn.
    destruct (authenticated v); cbn [negb]; eexists; repeat split; discriminate.
Qed.


End AvpProperties.

Section AvpWitnesses.
Import CStr Avp.
Local Open Scope string_scope.

(** C10 at two concrete calls on the simulated chip: a fresh vault
    authenticated without PIN, and an authenticated vault logging in
    again with a PIN and another workspace. *)
Lemma session_id_is_constant_witness :
  exists v1' v2' b1' b2',
    avp_authenticate (Some Sim.vault0) None None 0 Sim.bus0 = (AVP_OK, Some v1', b1')
    /\ avp_authenticate (Some Sim.vault_auth) (Some "prod") (Some "123456") 60 Sim.bus0
       = (AVP_OK, Some v2', b2')
    /\ string_of_buf (session_id v1') = string_of_buf (session_id v2').
Proof.
  do 4 eexists.
  split; [cbv; reflexivity|]. split; [cbv; reflexivity|].
  refine (proj1 (session_id_is_constant Sim.vault0 Sim.vault_auth _ _
                   None (Some "prod") None (Some "123456") 0 60
                   Sim.bus0 Sim.bus0 _ _ _ _ _ _)).
  - split; reflexivity.
  - split; reflexivity.
  - cbv; reflexivity.
  - cbv; reflexivity.
Defined.


(** C3 on an authenticated vault of the simulated chip, for a name that
    starts with a digit and holds a space: an over-long value and the bad
    name are refused by [avp_store], the bad name by [avp_retrieve]. *)
Lemma store_retrieve_reject_before_io_witness :
  avp_store (Some Sim.vault_auth) (Some "9 lives") (Some [7]) 65537 Sim.bus_secret
  = (AVP_ERR_INVALID_NAME, Some Sim.vault_auth, Sim.bus_secret)
  /\ avp_store (Some Sim.vault_auth) (Some "api_key") (Some [7]) 65537 Sim.bus_secret
     = (AVP_ERR_INTERNAL, Some Sim.vault_auth, Sim.bus_secret)
  /\ avp_retrieve (Some Sim.vault0) (Some "9 lives") (Some [0; 0; 0]) (Some 3)
       Sim.bus_secret
     = (AVP_ERR_NOT_INITIALIZED, Some Sim.vault0,
        mk_retrieve_out (Some [0; 0; 0]) (Some 3), Sim.bus_secret).
Proof.
  split; [|split].
  - destruct (store_retrieve_reject_before_io Sim.vault_auth "9 lives" [7] [] 65537 0
                Sim.bus_secret (or_introl eq_refl)) as [(e & Hs & -> & _) _].
    exact Hs.
  - destruct (store_retrieve_reject_before_io Sim.vault_auth "api_key" [7] [] 65537 0
                Sim.bus_secret (or_intror eq_refl)) as [(e & Hs & -> & _) _].
    exact Hs.
  - destruct (store_retrieve_reject_before_io Sim.vault0 "9 lives" [] [0; 0; 0] 0 3
                Sim.bus_secret (or_introl eq_refl)) as [_ Hr].
    destruct (Hr eq_refl) as (e & Hs & -> & _). exact Hs.
Defined.

(** C3 as stated fails on [avp_delete]: a name that
    [validate_secret_name] rejects is not answered with an argument
    error.  The call returns [AVP_OK], and on the way it has called
    [lt_r_mem_data_erase] on slot 0 and the stored secret is gone. *)
Lemma avp_delete_accepts_invalid_name :
  validate_secret_name (Some "9 lives") = false
  /\ avp_delete (Some Sim.vault_auth) (Some "9 lives") (Some false) Sim.bus_secret
     = (AVP_OK, Some Sim.vault_auth, Some true,
        @mk_bus Sim.sim_libtropic (Sim.mk_sim_chip None "123456")
          [Call_lt_r_mem_data_erase 0]).
Proof. split; reflexivity. Qed.


End AvpWitnesses.

(** * Properties of the STM32U5 port *)

Section PortProperties.
Context `{H : Port.Stm32Hal}.
Import Port.

Ltac run_hal := unfold bind, ret, hal, when; cbn [fst snd board hal_calls].

(** Names the outcome of the next GPIO call on the board. *)
Ltac step_hal :=
  match goal with
  | |- context [HAL_GPIO_WritePin ?a ?b ?c ?d] =>
      destruct (HAL_GPIO_WritePin a b c d) as [[] ?brd]
  | |- context [HAL_GPIO_Init ?a ?b ?c] =>
      destruct (HAL_GPIO_Init a b c) as [[] ?brd]
  end; cbn [fst snd board hal_calls].

(** The pin verification loop only appends to the log. *)
Lemma wait_pin_extends (n : nat) (port pin : Z) (want : GPIO_PinState) (m : mcu_t) :
  exists rest, hal_calls (wait_pin n port pin want m).2 = hal_calls m ++ rest.
Proof.
  revert m. induction n as [|n IH]; intros m; cbn [wait_pin].
  - exists []. run_hal. now rewrite app_nil_r.
  - run_hal. destruct (HAL_GPIO_ReadPin port pin (board m)) as [st brd].
    destruct (bool_decide (st = want)).
    + eexists. reflexivity.
    + destruct (IH (mk_mcu _ brd (hal_calls m ++ [Call_HAL_GPIO_ReadPin port pin])))
        as [rest Hrest].
      exists (Call_HAL_GPIO_ReadPin port pin :: rest).
      rewrite Hrest. cbn [hal_calls]. now rewrite <- app_assoc.
Qed.



(** C9: [lt_port_init] first hands [HAL_SPI_Init] a configuration with
    clock polarity low and first-edge phase (mode 0), 8-bit frames, MSB
    first, two-line full duplex, master, and software chip select; that
    configuration is what the device structure holds afterwards.  Chip
    select is active low: [lt_port_spi_csn_low] starts by driving the CS
    pin to [GPIO_PIN_RESET], [lt_port_spi_csn_high] to [GPIO_PIN_SET]. *)
Theorem port_init_configures_spi_mode0 (s2 : lt_l2_state_t) (m : mcu_t) :
  let res := lt_port_init s2 m in
  let hspi := spi_handle (device res.1.2) in
  let cfg := Init hspi in
  let cs_port := spi_cs_gpio_port (device s2) in
  let cs_pin := spi_cs_gpio_pin (device s2) in
  (exists rest, hal_calls res.2 = hal_calls m ++ Call_HAL_SPI_Init hspi :: rest)
  /\ cpol (CLKPolarity cfg) = 0
  /\ cpha (CLKPhase cfg) = 0
  /\ frame_bits (DataSize cfg) = 8
  /\ FirstBit cfg = SPI_FIRSTBIT_MSB
  /\ Direction cfg = SPI_DIRECTION_2LINES
  /\ Mode cfg = SPI_MODE_MASTER
  /\ NSS cfg = SPI_NSS_SOFT
  /\ (exists rest,
        hal_calls (lt_port_spi_csn_low s2 m).2
        = hal_calls m ++ Call_HAL_GPIO_WritePin cs_port cs_pin GPIO_PIN_RESET :: rest)
  /\ pin_level_high GPIO_PIN_RESET = false
  /\ (exists rest,
        hal_calls (lt_port_spi_csn_high s2 m).2
        = hal_calls m ++ Call_HAL_GPIO_WritePin cs_port cs_pin GPIO_PIN_SET :: rest)
  /\ pin_level_high GPIO_PIN_SET = true.
Proof.
  cbv zeta.
  assert (Hcfg : Init (spi_handle (device (lt_port_init s2 m).1.2))
                 = mk_spi_init
                     (if baudrate_prescaler (device s2) =? 0
                      then SPI_BAUDRATEPRESCALER_32 else baudrate_prescaler (device s2))
                     SPI_DIRECTION_2LINES SPI_PHASE_1EDGE SPI_POLARITY_LOW
                     SPI_CRCCALCULATION_DISABLE SPI_DATASIZE_8BIT SPI_FIRSTBIT_MSB
                     SPI_NSS_SOFT SPI_TIMODE_DISABLE SPI_MODE_MASTER SPI_NSS_PULSE_DISABLE
                     SPI_MASTER_KEEP_IO_STATE_ENABLE
                 /\ exists rest,
                      hal_calls (lt_port_init s2 m).2
                      = hal_calls m
                        ++ Call_HAL_SPI_Init (spi_handle (device (lt_port_init s2 m).1.2))
                        :: rest).
  { unfold lt_port_init. run_hal.
    cbn [set_spi_handle device buff spi_instance baudrate_prescaler spi_cs_gpio_pin
           spi_cs_gpio_port int_gpio_pin int_gpio_port rst_gpio_pin rst_gpio_port
           spi_handle].
    destruct (HAL_SPI_Init _ _) as [r brd].
    destruct (bool_decide (r = HAL_OK)); cbn [negb].
    - destruct LT_USE_INT_PIN;
        destruct (negb (rst_gpio_port (device s2) =? 0)
                  && negb (rst_gpio_pin (device s2) =? 0));
        run_hal; repeat step_hal;
        (split; [reflexivity|]); rewrite <- ?app_assoc; eexists; reflexivity.
    - cbn. split; [reflexivity|]. eexists. reflexivity. }
  destruct Hcfg as [Hcfg Hlog]. rewrite Hcfg. cbn.
  repeat (split; [try reflexivity|]); try reflexivity.
  - exact Hlog.
  - unfold lt_port_spi_csn_low. run_hal.
    destruct (HAL_GPIO_WritePin _ _ _ _) as [[] brd].
    destruct (wait_pin_extends LT_STM32U5_GPIO_CHECK_ATTEMPTS
                (spi_cs_gpio_port (device s2)) (spi_cs_gpio_pin (device s2))
                GPIO_PIN_RESET
                (mk_mcu _ brd (hal_calls m
                   ++ [Call_HAL_GPIO_WritePin (spi_cs_gpio_port (device s2))
                         (spi_cs_gpio_pin (device s2)) GPIO_PIN_RESET])))
      as [rest Hrest].
    exists rest. rewrite Hrest. cbn [hal_calls]. now rewrite <- app_assoc.
  - unfold lt_port_spi_csn_high. run_hal.
    destruct (HAL_GPIO_WritePin _ _ _ _) as [[] brd].
    destruct (wait_pin_extends LT_STM32U5_GPIO_CHECK_ATTEMPTS
                (spi_cs_gpio_port (device s2)) (spi_cs_gpio_pin (device s2))
                GPIO_PIN_SET
                (mk_mcu _ brd (hal_calls m
                   ++ [Call_HAL_GPIO_WritePin (spi_cs_gpio_port (device s2))
                         (spi_cs_gpio_pin (device s2)) GPIO_PIN_SET])))
      as [rest Hrest].
    exists rest. rewrite Hrest. cbn [hal_calls]. now rewrite <- app_assoc.
Qed.

End PortProperties.

Section PortWitnesses.
Import Port.


End PortWitnesses.

(** * The return value of [lt_init] when the application firmware does
      not boot *)

Section MockInitProperties.
Import MockInit.





End MockInitProperties.

(** * Ping over the modelled secure session *)

Section PingProperties.
Import L3Spec.
Context `{E : Tr01Env} {EL : Tr01EnvLaws}.

Lemma chunks_fuel_concat (fuel : nat) (data : bytes) :
  (length data <= fuel)%nat -> concat (chunks_fuel fuel data) = data.
Proof.
  revert data. induction fuel as [|fuel IH]; intros data Hlen.
  - destruct data; [reflexivity | cbn in Hlen; lia].
  - destruct data as [|x data]; [reflexivity|].
    cbn [chunks_fuel concat]. rewrite IH.
    + apply take_drop.
    + rewrite length_drop. cbn [length] in *. unfold L1_MAX_PAYLOAD. lia.
Qed.

(** Chunking and reassembly deliver the frame unchanged. *)
Lemma l2_transfer_id (frame : bytes) : l2_transfer frame = frame.
Proof. unfold l2_transfer, reassemble, chunks. now apply chunks_fuel_concat. Qed.

(** No chunk carries more than 252 bytes. *)
Lemma chunks_fuel_bounded (fuel : nat) (data : bytes) :
  Forall (fun c => (length c <= L1_MAX_PAYLOAD)%nat) (chunks_fuel fuel data).
Proof.
  revert data. induction fuel as [|fuel IH]; intros data; cbn [chunks_fuel].
  - constructor.
  - destruct data as [|x data]; constructor.
    + rewrite length_take. lia.
    + apply IH.
Qed.

Lemma parse_l3_frame_frame (ct tag : bytes) :
  Z.of_nat (length ct) < 65536 -> length tag = TAG_LEN ->
  parse_l3_frame (l3_frame ct tag) = Some (ct, tag).
Proof.
  intros Hct Htag. unfold l3_frame, parse_l3_frame. cbn [le_bytes app].
  set (n := Z.of_nat (length ct)) in *.
  assert (Hn : Z.to_nat (n mod 256 + 256 * (n / 256 mod 256)) = length ct).
  { assert (Hq : 0 <= n / 256 < 256).
    { split; [apply Z.div_pos; lia | apply Z.div_lt_upper_bound; lia]. }
    rewrite (Z.mod_small (n / 256) 256) by exact Hq.
    pose proof (Z.div_mod n 256 ltac:(lia)) as Hdm.
    replace (n mod 256 + 256 * (n / 256)) with n by lia.
    apply Nat2Z.id. }
  rewrite Hn, length_app, Htag, Nat.eqb_refl.
  now rewrite take_app_length, drop_app_length.
Qed.

(** In an established session shared with the chip, [ping] returns the
    bytes it sent and advances both counters on both ends. *)
Lemma ping_echo_in_sync (w : world) (kc kr : bytes) (nc nr : Z) (msg : bytes) :
  in_sync w kc kr nc nr ->
  nc < COUNTER_MAX -> nr < COUNTER_MAX ->
  Z.of_nat (length msg) <= TR01_PING_LEN_MAX ->
  exists w',
    lt_ping w msg = (Ok msg, w') /\ in_sync w' kc kr (nc + 1) (nr + 1).
Proof.
  intros [Hh Hc] Hnc Hnr Hlen. unfold lt_ping.
  destruct (Z.ltb_spec TR01_PING_LEN_MAX (Z.of_nat (length msg))); [lia|].
  rewrite Hh.
  destruct (Z.leb_spec COUNTER_MAX nc); [lia|].
  destruct (Z.leb_spec COUNTER_MAX nr); [lia|]. cbn [orb].
  rewrite l2_transfer_id. unfold chip_command. rewrite Hc.
  rewrite parse_l3_frame_frame.
  2: { rewrite gcm_cipher_length. cbn [length]. unfold TR01_PING_LEN_MAX in *. lia. }
  2: { apply gcm_tag_length. }
  rewrite gcm_open_seal, Z.eqb_refl.
  rewrite l2_transfer_id, parse_l3_frame_frame.
  2: { rewrite gcm_cipher_length. cbn [length]. unfold TR01_PING_LEN_MAX in *. lia. }
  2: { apply gcm_tag_length. }
  rewrite gcm_open_seal, Z.eqb_refl, Nat.eqb_refl. cbn [negb].
  eexists. split; [reflexivity|]. split; reflexivity.
Qed.

(** A handshake on a provisioned slot succeeds and leaves both ends in
    the same session, counters at zero. *)
Lemma handshake_in_sync (w : world) (sh ST : bytes) (slot : Z) (eh et : bytes) :
  0 <= slot <= PAIRING_SLOT_MAX ->
  provisioned w sh ST slot ->
  exists w' kc kr,
    start_session w sh ST slot eh et = (Ok tt, w') /\ in_sync w' kc kr 0 0.
Proof.
  intros Hslot [Hpair HST]. unfold start_session.
  destruct (Z.ltb_spec slot 0); [lia|].
  destruct (Z.ltb_spec PAIRING_SLOT_MAX slot); [lia|]. cbn [orb].
  rewrite l2_transfer_id. unfold chip_handshake. rewrite Hpair.
  subst ST.
  rewrite (x25519_agree eh (chip_static_priv (the_chip w))).
  rewrite (x25519_agree sh et), (x25519_agree eh et).
  unfold handshake_tag.
  set (keys := derive_keys _ _ _).
  set (h := transcript_hash _ _ _ _).
  assert (Hnil : (aes256gcm_encrypt (k_auth keys) (nonce 0) h []).1 = []).
  { apply length_zero_iff_nil. now rewrite gcm_cipher_length. }
  pose proof (gcm_open_seal (k_auth keys) (nonce 0) h []) as Hopen.
  rewrite Hnil in Hopen. rewrite Hopen.
  do 3 eexists. split; [reflexivity|]. split; reflexivity.
Qed.

(** C8: after a successful handshake on pairing slot 0, [ping] of any
    message of 0 to 4096 bytes succeeds and returns the bytes that were
    sent; both counters stand at one afterwards. *)
Theorem ping_echo_after_handshake (w : world) (sh ST eh et msg : bytes) :
  provisioned w sh ST 0 ->
  Z.of_nat (length msg) <= TR01_PING_LEN_MAX ->
  exists w1 w2 kc kr,
    start_session w sh ST 0 eh et = (Ok tt, w1)
    /\ lt_ping w1 msg = (Ok msg, w2)
    /\ host_session w2 = Established kc kr 1 1.
Proof.
  intros Hprov Hlen.
  destruct (handshake_in_sync w sh ST 0 eh et) as (w1 & kc & kr & Hs & Hsync);
    [unfold PAIRING_SLOT_MAX; lia | exact Hprov |].
  destruct (ping_echo_in_sync w1 kc kr 0 0 msg Hsync) as (w2 & Hp & Hsync2);
    [unfold COUNTER_MAX; lia | unfold COUNTER_MAX; lia | exact Hlen |].
  exists w1, w2, kc, kr. repeat split; [exact Hs | exact Hp | apply Hsync2].
Qed.

End PingProperties.

Section PingWitnesses.
Import L3Spec.

Lemma toy_sum_singleton (x : Z) : toy_sum [x] = x.
Proof. unfold toy_sum. cbn. lia. Qed.

Lemma toy_xor_twice (k : Z) (p : bytes) :
  map (fun b => Z.lxor b k) (map (fun b => Z.lxor b k) p) = p.
Proof.
  induction p as [|b p IH]; [reflexivity|]. cbn [map]. rewrite IH. f_equal.
  now rewrite Z.lxor_assoc, Z.lxor_nilpotent, Z.lxor_0_r.
Qed.

(** The toy primitives satisfy the laws the model asks for. *)
Lemma toy_env_laws : @Tr01EnvLaws toy_env.
Proof.
  split.
  - intros a b. unfold x25519_pub. cbn [x25519 toy_env].
    rewrite !toy_sum_singleton. f_equal. lia.
  - intros k n aad p. cbn [aes256gcm_encrypt aes256gcm_decrypt toy_env fst snd].
    rewrite bool_decide_eq_true_2 by reflexivity. now rewrite toy_xor_twice.
  - intros k n aad p. cbn [aes256gcm_encrypt toy_env fst]. apply length_map.
  - intros k n aad p. cbn [aes256gcm_encrypt toy_env snd]. apply length_replicate.
Qed.

(** C8 on the toy instance: the scenario of the spec,
    [ping([0x01, 0x02, 0x03])] after a handshake on slot 0. *)
Lemma ping_echo_after_handshake_witness :
  exists w1 w2 kc kr,
    start_session world0 toy_sh (x25519_pub toy_chip_priv) 0 [1; 2] [3; 4] = (Ok tt, w1)
    /\ lt_ping w1 [1; 2; 3] = (Ok [1; 2; 3], w2)
    /\ host_session w2 = Established kc kr 1 1.
Proof.
  apply (@ping_echo_after_handshake toy_env toy_env_laws world0 toy_sh
           (x25519_pub toy_chip_priv) [1; 2] [3; 4] [1; 2; 3]).
  - split; reflexivity.
  - unfold TR01_PING_LEN_MAX. cbn. lia.
Defined.

(** The length check comes before the session is looked at: 4097 bytes
    are an argument error, and nothing changes. *)
Lemma ping_rejects_4097 (w : world) :
  lt_ping w (replicate 4097 0) = (Err ArgumentError, w).
Proof.
  unfold lt_ping. rewrite length_replicate. reflexivity.
Qed.

(** Without a session, [ping] does not reach the chip. *)
Lemma ping_without_session : lt_ping world0 [1; 2; 3] = (Err NoSession, world0).
Proof. reflexivity. Qed.

(** Slot 4 is an argument error. *)
Lemma handshake_slot_4 :
  start_session world0 toy_sh (x25519_pub toy_chip_priv) 4 [1; 2] [3; 4]
  = (Err ArgumentError, world0).
Proof. reflexivity. Qed.

End PingWitnesses.

(** * Further properties of the vault layer *)

Section AvpMoreProperties.
Context `{L : Libtropic}.
Import CStr Avp AvpMore.
Local Open Scope string_scope.

Ltac run_st' := unfold bind, ret, invoke; cbn [fst snd chip calls].

Local Arguments generate_session_id : simpl never.
Local Arguments strcpy : simpl never.
Local Arguments strncpy : simpl never.
Local Arguments memset0 : simpl never.

(** *** Buffer facts *)

Lemma store_bytes_length (data : list ascii) (off : nat) (buf : list ascii) :
  length (store_bytes off data buf) = length buf.
Proof.
  revert off buf. induction data as [|c cs IH]; intros off buf; cbn [store_bytes].
  - reflexivity.
  - rewrite IH. apply length_insert.
Qed.

Lemma store_bytes_lookup_ge (data : list ascii) (off i : nat) (buf : list ascii) :
  (off + length data <= i)%nat -> store_bytes off data buf !! i = buf !! i.
Proof.
  revert off buf. induction data as [|c cs IH]; intros off buf Hi; cbn [store_bytes].
  - reflexivity.
  - cbn [length] in Hi. rewrite IH by lia. apply list_lookup_insert_ne. lia.
Qed.

(** Stores over a window of the buffer replace exactly that window. *)
Lemma store_bytes_window (data old pre post : list ascii) :
  length old = length data ->
  store_bytes (length pre) data (pre ++ old ++ post) = (pre ++ data ++ post)%list.
Proof.
  revert old pre. induction data as [|c cs IH]; intros old pre Hlen.
  - destruct old; [reflexivity | discriminate].
  - destruct old as [|o os]; [discriminate|]. cbn [length] in Hlen.
    cbn [store_bytes app].
    rewrite insert_app_r_alt, Nat.sub_diag by lia.
    change (<[0%nat:=c]> (o :: os ++ post)%list) with (c :: os ++ post)%list.
    specialize (IH os (pre ++ [c])%list ltac:(lia)).
    rewrite length_app, <- app_assoc in IH. cbn [length app] in IH.
    rewrite Nat.add_1_r in IH. rewrite IH. now rewrite <- app_assoc.
Qed.

(** Storing at offset 0 no more bytes than the buffer holds replaces its
    front. *)
Lemma store_bytes_front (data buf : list ascii) :
  (length data <= length buf)%nat ->
  store_bytes 0 data buf = (data ++ drop (length data) buf)%list.
Proof.
  intros Hlen.
  rewrite <- (take_drop (length data) buf) at 1.
  apply (store_bytes_window data (take (length data) buf) []).
  rewrite length_take. lia.
Qed.

Lemma strcpy_length (dst : list ascii) (src : string) :
  length (strcpy dst src) = length dst.
Proof. apply store_bytes_length. Qed.

Lemma strncpy_length (dst : list ascii) (src : string) (n : nat) :
  length (strncpy dst src n) = length dst.
Proof. apply store_bytes_length. Qed.

Lemma strncpy_data_length (src : string) (n : nat) :
  length (take n (c_str (list_ascii_of_string src))
          ++ replicate (n - length (c_str (list_ascii_of_string src))) NUL)%list = n.
Proof. rewrite length_app, length_take, length_replicate. lia. Qed.

Lemma strncpy_lookup_ge (dst : list ascii) (src : string) (n i : nat) :
  (n <= i)%nat -> strncpy dst src n !! i = dst !! i.
Proof.
  intros Hi. unfold strncpy. apply store_bytes_lookup_ge.
  rewrite strncpy_data_length. lia.
Qed.

(** The C string has no NUL in it. *)
Lemma c_str_no_nul (mem : list ascii) : Forall (fun c => is_nul c = false) (c_str mem).
Proof.
  induction mem as [|c mem IH]; cbn [c_str]; [constructor|].
  destruct (is_nul c) eqn:Hc; constructor; assumption.
Qed.

(** A C string followed by a NUL reads back as itself. *)
Lemma c_str_terminated (s rest : list ascii) :
  Forall (fun c => is_nul c = false) s -> c_str (s ++ NUL :: rest) = s.
Proof.
  induction 1 as [|c s Hc _ IH]; cbn [c_str app].
  - reflexivity.
  - rewrite Hc, IH. reflexivity.
Qed.

Lemma fill_suffix_length (fuel i p m : nat) (buf : list ascii) :
  length (fill_suffix fuel i p m buf) = length buf.
Proof.
  revert i buf. induction fuel as [|fuel IH]; intros i buf; cbn [fill_suffix].
  - reflexivity.
  - destruct (_ && _); [|reflexivity]. rewrite IH. apply length_insert.
Qed.

Lemma generate_session_id_length (buf : list ascii) (max_len : nat) :
  length (generate_session_id buf max_len) = length buf.
Proof.
  unfold generate_session_id. rewrite length_insert, fill_suffix_length.
  unfold snprintf_s. destruct max_len; [reflexivity|]. apply store_bytes_length.
Qed.

(** *** Characters *)

Lemma letter_bool (c : ascii) :
  is_upper c || is_lower c = existsb (Ascii.eqb c) (list_ascii_of_string letters).
Proof. destruct c as [[] [] [] [] [] [] [] []]; vm_compute; reflexivity. Qed.

Lemma name_char_bool (c : ascii) :
  name_char_valid c = existsb (Ascii.eqb c) (list_ascii_of_string name_alphabet).
Proof. destruct c as [[] [] [] [] [] [] [] []]; vm_compute; reflexivity. Qed.

Lemma existsb_eqb_In (c : ascii) (l : list ascii) :
  existsb (Ascii.eqb c) l = true <-> In c l.
Proof.
  rewrite existsb_exists. split.
  - intros (x & Hx & He). apply Ascii.eqb_eq in He. now subst.
  - intros Hc. exists c. split; [exact Hc | apply Ascii.eqb_refl].
Qed.

Lemma name_rest_valid_Forall (cs : list ascii) :
  name_rest_valid cs = true
  <-> Forall (fun d => In d (list_ascii_of_string name_alphabet)) cs.
Proof.
  induction cs as [|c cs IH]; cbn [name_rest_valid].
  - split; [constructor | reflexivity].
  - rewrite Forall_cons, <- IH, <- existsb_eqb_In, <- name_char_bool.
    destruct (name_char_valid c); intuition discriminate.
Qed.

(** X1: [validate_secret_name] accepts exactly the names the API reference
    asks for: 1 to 255 characters, a letter first, then letters, digits,
    underscore, period or hyphen; a NULL name is refused. *)
Theorem validate_secret_name_is_the_documented_rule (s : string) :
  (validate_secret_name (Some s) = true
   <-> meets_name_requirements (c_str (list_ascii_of_string s)))
  /\ validate_secret_name None = false.
Proof.
  split; [|reflexivity].
  unfold validate_secret_name, meets_name_requirements.
  destruct (c_str (list_ascii_of_string s)) as [|c rest]; [intuition discriminate|].
  rewrite <- name_rest_valid_Forall, <- existsb_eqb_In, <- letter_bool.
  unfold AVP_MAX_SECRET_NAME_LEN.
  destruct (Nat.ltb_spec 255 (length (c :: rest))).
  - split; [discriminate | lia].
  - destruct (is_upper c || is_lower c); cbn [negb];
      [tauto | intuition discriminate].
Qed.

(** X2: [generate_session_id] on a buffer of [max_len >= 42] bytes keeps the
    size, writes the 41 characters of the id and a NUL at index 41, and
    leaves every byte from index 42 on as it was. *)
Theorem generate_session_id_frame (buf : list ascii) (k : nat) :
  length buf = (42 + k)%nat ->
  length (generate_session_id buf (42 + k)) = length buf
  /\ string_of_buf (generate_session_id buf (42 + k))
     = "avp_sess_jklmnopqrstuvwxyzABCDEFGHIJKLMNO"
  /\ generate_session_id buf (42 + k) !! 41%nat = Some NUL
  /\ drop 42 (generate_session_id buf (42 + k)) = drop 42 buf.
Proof.
  intros Hlen. split; [apply generate_session_id_length|].
  do 42 (destruct buf as [|? buf]; [discriminate Hlen|]).
  clear Hlen. vm_compute. repeat split.
Qed.

(** *** Initialisation *)

Lemma vault_zeroed_consistent (h : lt_handle_t) :
  vault_consistent (set_lt_handle vault_zeroed h).
Proof. repeat split. right. split; reflexivity. Qed.

(** X3: [avp_init] makes exactly one libtropic call, [lt_init]; it returns
    [AVP_OK] if that call returned [LT_OK] and [AVP_ERR_HARDWARE_ERROR]
    otherwise.  Either way the vault is reset, whatever it held before:
    session id zeroed, session inactive, not authenticated; on success the
    workspace is [default]. *)
Theorem avp_init_resets_vault (old old' : avp_vault_t) (dev : device_t) (b : bus_t) :
  let lt_ret := (lt_init lt_handle_zeroed dev (chip b)).1.1 in
  exists v' ch',
    avp_init (Some old) (Some dev) b
    = (if lt_is_ok lt_ret then AVP_OK else AVP_ERR_HARDWARE_ERROR, Some v',
       mk_bus _ ch' (calls b ++ [Call_lt_init])%list)
    /\ avp_init (Some old') (Some dev) b = avp_init (Some old) (Some dev) b
    /\ vault_consistent v'
    /\ authenticated v' = false
    /\ all_zero (session_id v')
    /\ (lt_is_ok lt_ret = true -> string_of_buf (workspace v') = "default").
Proof.
  cbv zeta. unfold avp_init. run_st'. cbn [lt_handle vault_zeroed].
  destruct (lt_init lt_handle_zeroed dev (chip b)) as [[r h] ch]. run_st'.
  destruct (lt_is_ok r); cbn [negb]; do 2 eexists;
    (split; [reflexivity|]); (split; [reflexivity|]).
  - repeat split; try (right; split; reflexivity).
    apply Forall_replicate. reflexivity.
  - split; [apply vault_zeroed_consistent|].
    repeat split; [apply Forall_replicate; reflexivity | discriminate].
Qed.

(** *** The session gate *)

(** X4: On a vault that is not authenticated, every command is refused with
    [AVP_ERR_NOT_INITIALIZED] before any libtropic call: the vault, the
    chip, the call log and every output parameter stay as they were. *)
Theorem commands_need_authentication (v : avp_vault_t) (name : string)
    (val buf data sig : list Z) (len rlen dlen slen mx cnt : Z) (deleted : bool)
    (att : avp_attestation_t) (b : bus_t) :
  authenticated v = false ->
  avp_store (Some v) (Some name) (Some val) len b
  = (AVP_ERR_NOT_INITIALIZED, Some v, b)
  /\ avp_retrieve (Some v) (Some name) (Some buf) (Some rlen) b
     = (AVP_ERR_NOT_INITIALIZED, Some v, mk_retrieve_out (Some buf) (Some rlen), b)
  /\ avp_delete (Some v) (Some name) (Some deleted) b
     = (AVP_ERR_NOT_INITIALIZED, Some v, Some deleted, b)
  /\ avp_list (Some v) mx (Some cnt) b = (AVP_ERR_NOT_INITIALIZED, Some v, Some cnt, b)
  /\ avp_hw_sign (Some v) (Some name) (Some data) dlen (Some sig) (Some slen) b
     = (AVP_ERR_NOT_INITIALIZED, Some v, mk_sign_out (Some sig) (Some slen), b)
  /\ avp_hw_attest (Some v) (Some name) (Some att) b
     = (AVP_ERR_NOT_INITIALIZED, Some att, b)
  /\ avp_session_active (Some v) = false.
Proof.
  intros Ha.
  unfold avp_store, avp_retrieve, avp_delete, avp_list, avp_hw_sign, avp_hw_attest,
    avp_session_active.
  rewrite Ha. cbn [negb]. rewrite andb_false_r. repeat split.
Qed.

(** A command changes nothing in the vault but the libtropic handle. *)
Lemma command_touches_handle_only (op : avp_op) (v : avp_vault_t) (b : bus_t) :
  is_command op = true ->
  exists r h b', run_op op (Some v) b = (r, Some (set_lt_handle v h), b').
Proof.
  assert (Hid : set_lt_handle v (lt_handle v) = v) by (destruct v; reflexivity).
  intros Hop. destruct op; try discriminate Hop; cbn [run_op].
  - unfold avp_store. destruct name, value; try (exists AVP_ERR_INTERNAL, (lt_handle v), b; now rewrite Hid).
    destruct (authenticated v); cbn [negb];
      [|exists AVP_ERR_NOT_INITIALIZED, (lt_handle v), b; now rewrite Hid].
    destruct (validate_secret_name _); cbn [negb];
      [|exists AVP_ERR_INVALID_NAME, (lt_handle v), b; now rewrite Hid].
    destruct (_ <? _)%Z; [exists AVP_ERR_INTERNAL, (lt_handle v), b; now rewrite Hid|].
    run_st'. destruct (lt_r_mem_data_write _ _ _ _ _) as [[r h] ch].
    destruct (lt_is_ok r); cbn [negb]; do 3 eexists; reflexivity.
  - unfold avp_retrieve. run_st'.
    destruct name, value, value_len;
      try (exists AVP_ERR_INTERNAL, (lt_handle v), b; now rewrite Hid).
    destruct (authenticated v); cbn [negb];
      [|exists AVP_ERR_NOT_INITIALIZED, (lt_handle v), b; now rewrite Hid].
    destruct (validate_secret_name _); cbn [negb];
      [|exists AVP_ERR_INVALID_NAME, (lt_handle v), b; now rewrite Hid].
    destruct (lt_r_mem_data_read _ _ _ _ _) as [[[r h] [buf' n]] ch].
    destruct (lt_is_ok r); cbn [negb];
      [|destruct (bool_decide _)]; do 3 eexists; reflexivity.
  - unfold avp_delete. run_st'.
    destruct name; [|exists AVP_ERR_INTERNAL, (lt_handle v), b; now rewrite Hid].
    destruct (authenticated v); cbn [negb];
      [|exists AVP_ERR_NOT_INITIALIZED, (lt_handle v), b; now rewrite Hid].
    destruct (lt_r_mem_data_erase _ _ _) as [[r h] ch].
    do 3 eexists; reflexivity.
  - unfold avp_list. run_st'.
    destruct count; [|exists AVP_ERR_INTERNAL, (lt_handle v), b; now rewrite Hid].
    destruct (authenticated v); cbn [negb];
      [exists AVP_OK | exists AVP_ERR_NOT_INITIALIZED];
      exists (lt_handle v), b; now rewrite Hid.
  - unfold avp_hw_sign. run_st'.
    destruct key_name, data, signature, signature_len;
      try (exists AVP_ERR_INTERNAL, (lt_handle v), b; now rewrite Hid).
    destruct (authenticated v); cbn [negb];
      [|exists AVP_ERR_NOT_INITIALIZED, (lt_handle v), b; now rewrite Hid].
    destruct (lt_ecc_ecdsa_sign _ _ _ _ _ _) as [[[r h] sig'] ch].
    destruct (lt_is_ok r); cbn [negb]; do 3 eexists; reflexivity.
  - unfold avp_hw_attest. run_st'.
    destruct name, attestation_arg;
      try (exists AVP_ERR_INTERNAL, (lt_handle v), b; now rewrite Hid).
    destruct (authenticated v); cbn [negb];
      [exists AVP_OK | exists AVP_ERR_NOT_INITIALIZED];
      exists (lt_handle v), b; now rewrite Hid.
Qed.

Lemma commands_touch_handle_only (ops : list avp_op) (v : avp_vault_t) (b : bus_t) :
  forallb is_command ops = true ->
  exists rs h b', run_ops ops (Some v) b = (rs, Some (set_lt_handle v h), b')
                  /\ length rs = length ops.
Proof.
  revert v b. induction ops as [|op ops IH]; intros v b Hops.
  - exists [], (lt_handle v), b. destruct v; split; reflexivity.
  - cbn [forallb] in Hops. apply andb_prop in Hops as [Hop Hops].
    destruct (command_touches_handle_only op v b Hop) as (r & h & b1 & Hr).
    destruct (IH (set_lt_handle v h) b1 Hops) as (rs & h' & b2 & Hrs & Hlen).
    exists (r :: rs), h', b2. cbn [run_ops]. unfold bind at 1. rewrite Hr.
    unfold bind at 1. rewrite Hrs. split; [reflexivity | cbn; now rewrite Hlen].
Qed.

(** X5: A session never expires: once a vault is authenticated, any number
    of commands, whatever they return, leaves it authenticated with the
    same active session, session id, TTL, timestamp and workspace. *)
Theorem commands_never_end_the_session (ops : list avp_op) (v : avp_vault_t) (b : bus_t) :
  forallb is_command ops = true ->
  avp_session_active (Some v) = true ->
  exists rs v' b',
    run_ops ops (Some v) b = (rs, Some v', b')
    /\ avp_session_active (Some v') = true
    /\ session_id v' = session_id v
    /\ session_ttl v' = session_ttl v
    /\ session_created_at v' = session_created_at v
    /\ workspace v' = workspace v.
Proof.
  intros Hops Hact.
  destruct (commands_touch_handle_only ops v b Hops) as (rs & h & b' & Hrs & _).
  exists rs, (set_lt_handle v h), b'. repeat split; [exact Hrs | exact Hact].
Qed.

(** *** Consistency of the vault along any sequence of calls *)

Lemma set_lt_handle_consistent (v : avp_vault_t) (h : lt_handle_t) :
  vault_consistent v -> vault_consistent (set_lt_handle v h).
Proof. intros Hv. exact Hv. Qed.

Lemma workspace_update_sized (v : avp_vault_t) (ws : option string) :
  let w := match ws with
           | Some w => strncpy (workspace v) w (256 - 1)
           | None => strcpy (workspace v) "default"
           end in
  length w = length (workspace v) /\ w !! 255%nat = workspace v !! 255%nat.
Proof.
  destruct ws as [w|]; cbv zeta; split.
  - apply strncpy_length.
  - apply strncpy_lookup_ge. cbn. lia.
  - apply strcpy_length.
  - unfold strcpy. apply store_bytes_lookup_ge. cbn. lia.
Qed.

Lemma run_op_consistent (op : avp_op) (v : avp_vault_t) (b : bus_t) :
  vault_consistent v ->
  exists r v' b', run_op op (Some v) b = (r, Some v', b') /\ vault_consistent v'.
Proof.
  intros Hv. destruct (is_command op) eqn:Hop.
  - destruct (command_touches_handle_only op v b Hop) as (r & h & b' & Hr).
    exists r, (set_lt_handle v h), b'. split; [exact Hr | exact Hv].
  - destruct Hv as ([Hsid Hws] & Hlast & Hst).
    destruct op; try discriminate Hop; cbn [run_op].
    + destruct (workspace_update_sized v workspace_arg) as [Hl H255]. cbv zeta in *.
      unfold avp_authenticate. run_st'.
      destruct pin as [p|]; run_st'.
      * destruct (lt_login _ _ _ _) as [[r h] ch]. run_st'.
        destruct (lt_is_ok r); cbn [negb]; do 3 eexists; (split; [reflexivity|]);
          destruct workspace_arg; unfold vault_consistent, vault_sized;
          cbn [session_id workspace authenticated session_state set_lt_handle
                 set_workspace];
          rewrite ?generate_session_id_length, ?Hl, ?H255; auto.
      * cbn [lt_is_ok negb bool_decide decide_rel]. do 3 eexists.
        split; [reflexivity|].
        destruct workspace_arg; unfold vault_consistent, vault_sized;
          cbn [session_id workspace authenticated session_state set_lt_handle
                 set_workspace];
          rewrite ?generate_session_id_length, ?Hl, ?H255; auto.
    + unfold avp_deinit. run_st'.
      destruct (lt_deinit _ _) as [[r h] ch]. do 3 eexists.
      split; [reflexivity|].
      unfold vault_consistent, vault_sized.
      cbn [session_id workspace authenticated session_state].
      unfold memset0. rewrite length_replicate. auto.
Qed.

Lemma run_ops_consistent (ops : list avp_op) (v : avp_vault_t) (b : bus_t) :
  vault_consistent v ->
  exists rs v' b', run_ops ops (Some v) b = (rs, Some v', b') /\ vault_consistent v'.
Proof.
  revert v b. induction ops as [|op ops IH]; intros v b Hv.
  - exists [], v, b. split; [reflexivity | exact Hv].
  - destruct (run_op_consistent op v b Hv) as (r & v1 & b1 & Hr & Hv1).
    destruct (IH v1 b1 Hv1) as (rs & v2 & b2 & Hrs & Hv2).
    exists (r :: rs), v2, b2. cbn [run_ops]. unfold bind at 1. rewrite Hr.
    unfold bind at 1. rewrite Hrs. split; [reflexivity | exact Hv2].
Qed.

(** X6: After [avp_init], successful or not, and any sequence of calls with
    any arguments, the vault is consistent: [session_id] has 64 bytes and
    [workspace] 256, ending in NUL; [authenticated] holds exactly when the
    session is active, so [avp_session_active] equals [authenticated]; and
    the states [AVP_SESSION_EXPIRED] and [AVP_SESSION_TERMINATED] never
    occur. *)
Theorem vault_stays_consistent (old : avp_vault_t) (dev : device_t) (ops : list avp_op)
    (b : bus_t) :
  exists r0 v0 b0 rs v b',
    avp_init (Some old) (Some dev) b = (r0, Some v0, b0)
    /\ run_ops ops (Some v0) b0 = (rs, Some v, b')
    /\ vault_consistent v
    /\ avp_session_active (Some v) = authenticated v
    /\ session_state v <> AVP_SESSION_EXPIRED
    /\ session_state v <> AVP_SESSION_TERMINATED.
Proof.
  assert (Hinit : exists r0 v0 b0,
            avp_init (Some old) (Some dev) b = (r0, Some v0, b0) /\ vault_consistent v0).
  { unfold avp_init. run_st'. cbn [lt_handle vault_zeroed].
    destruct (lt_init lt_handle_zeroed dev (chip b)) as [[r h] ch]. run_st'.
    destruct (lt_is_ok r); cbn [negb]; do 3 eexists; (split; [reflexivity|]).
    - repeat split. right. split; reflexivity.
    - apply vault_zeroed_consistent. }
  destruct Hinit as (r0 & v0 & b0 & Hi & Hv0).
  destruct (run_ops_consistent ops v0 b0 Hv0) as (rs & v & b' & Hrs & Hv).
  exists r0, v0, b0, rs, v, b'. split; [exact Hi|]. split; [exact Hrs|].
  split; [exact Hv|].
  destruct Hv as (_ & _ & [[Ha Hs] | [Ha Hs]]); unfold avp_session_active;
    rewrite Ha, Hs; repeat split; discriminate.
Qed.

(** *** Authentication *)

(** X7: A failed login does not end a session: [avp_authenticate] returns
    [AVP_ERR_AUTHENTICATION_FAILED] and leaves [authenticated], the
    session state, the session id and the TTL as they were, so a vault
    that was authenticated still is; only the workspace has already been
    overwritten. *)
Theorem failed_login_keeps_session (v : avp_vault_t) (ws : option string) (p : string)
    (ttl : Z) (b : bus_t) :
  (lt_login (lt_handle v) p (Z.of_nat (strlen p)) (chip b)).1.1 <> LT_OK ->
  exists v' b',
    avp_authenticate (Some v) ws (Some p) ttl b
    = (AVP_ERR_AUTHENTICATION_FAILED, Some v', b')
    /\ authenticated v' = authenticated v
    /\ session_state v' = session_state v
    /\ session_id v' = session_id v
    /\ session_ttl v' = session_ttl v
    /\ avp_session_active (Some v') = avp_session_active (Some v)
    /\ workspace v' = match ws with
                      | Some w => strncpy (workspace v) w 255
                      | None => strcpy (workspace v) "default"
                      end.
Proof.
  intros Hfail. unfold avp_authenticate. run_st'.
  assert (Hh : forall w, lt_handle (set_workspace v w) = lt_handle v) by reflexivity.
  destruct ws as [w|]; rewrite Hh;
    destruct (lt_login _ _ _ _) as [[r h] ch]; cbn [fst] in Hfail; run_st';
    unfold lt_is_ok; rewrite bool_decide_eq_false_2 by exact Hfail; cbn [negb];
    do 2 eexists; repeat split.
Qed.

Lemma replicate_snoc_nul (k : nat) :
  (replicate k NUL ++ [NUL])%list = NUL :: replicate k NUL.
Proof. induction k as [|k IH]; [reflexivity|]. cbn. now rewrite IH. Qed.

(** X8: After [avp_authenticate] on a consistent vault, whether the login
    succeeded or not, the workspace buffer holds a terminated string: the
    first 255 characters of the workspace argument, or [default] for a
    NULL argument. *)
Theorem workspace_is_truncated_and_terminated (v : avp_vault_t) (ws pin : option string)
    (ttl : Z) (b : bus_t) :
  vault_consistent v ->
  exists v',
    (avp_authenticate (Some v) ws pin ttl b).1.2 = Some v'
    /\ c_str (workspace v')
       = take 255 (c_str (list_ascii_of_string (default "default" ws)))
    /\ length (workspace v') = 256%nat.
Proof.
  intros ([_ Hlen] & Hlast & _).
  set (w := match ws with
            | Some w => strncpy (workspace v) w (256 - 1)
            | None => strcpy (workspace v) "default"
            end).
  assert (Hw : c_str w = take 255 (c_str (list_ascii_of_string (default "default" ws)))
               /\ length w = 256%nat).
  { subst w. destruct ws as [s|]; cbn [default].
    - split; [|now rewrite strncpy_length].
      unfold strncpy. change (256 - 1)%nat with 255%nat.
      rewrite store_bytes_front by (rewrite strncpy_data_length; lia).
      rewrite strncpy_data_length.
      assert (Hd : drop 255 (workspace v) = [NUL]).
      { rewrite (drop_S _ NUL 255 Hlast). rewrite drop_ge by lia. reflexivity. }
      rewrite Hd, <- app_assoc, replicate_snoc_nul.
      apply c_str_terminated.
      apply Forall_take, c_str_no_nul.
    - split; [|now rewrite strcpy_length].
      unfold strcpy. rewrite store_bytes_front by (cbn; lia).
      rewrite <- app_assoc. cbn [app].
      apply (c_str_terminated (c_str (list_ascii_of_string "default"))).
      apply c_str_no_nul. }
  destruct Hw as [Hcs Hwl]. subst w.
  unfold avp_authenticate. run_st'.
  destruct ws as [s|], pin as [p|]; run_st';
    try (destruct (lt_login _ _ _ _) as [[r h] ch]; run_st'; destruct (lt_is_ok r));
    cbn [lt_is_ok negb bool_decide decide_rel fst snd]; eexists;
    (split; [reflexivity|]); cbn [workspace set_workspace set_lt_handle]; auto.
Qed.

(** *** Names and slots *)


(** X10: [avp_retrieve] hands libtropic the buffer size cut to 16 bits: two
    calls whose [*value_len] agree modulo 65536 make the same libtropic
    call and agree on the return code, the vault, the buffer and the bus
    (a size of 65536 asks the chip for 0 bytes).  When the call does not
    return [AVP_OK], [*value_len] is left as the caller set it. *)
Theorem retrieve_length_is_16_bit (v : avp_vault_t) (name : string) (buf : list Z)
    (rlen rlen' : Z) (b : bus_t) :
  rlen mod 65536 = rlen' mod 65536 ->
  let r := avp_retrieve (Some v) (Some name) (Some buf) (Some rlen) b in
  let r' := avp_retrieve (Some v) (Some name) (Some buf) (Some rlen') b in
  r.1.1 = r'.1.1
  /\ value_buf r.1.2 = value_buf r'.1.2
  /\ r.2 = r'.2
  /\ (r.1.1.1 <> AVP_OK -> value_len_out r.1.2 = Some rlen)
  /\ (authenticated v = true -> validate_secret_name (Some name) = true ->
      calls r.2 = (calls b ++ [Call_lt_r_mem_data_read 0 (rlen mod 65536)])%list).
Proof.
  intros Hmod. cbv zeta. unfold avp_retrieve.
  destruct (authenticated v); cbn [negb]; [|repeat split; discriminate].
  destruct (validate_secret_name (Some name)); cbn [negb]; [|repeat split; discriminate].
  run_st'. rewrite <- Hmod.
  destruct (lt_r_mem_data_read _ _ _ _ _) as [[[r h] [buf' n]] ch].
  destruct (lt_is_ok r); cbn [negb]; [|destruct (bool_decide _)];
    repeat split; intros; try reflexivity; cbn in *; congruence.
Qed.

(** *** Attestation and discovery *)

(** X11: [avp_hw_attest] on an authenticated vault never consults the chip:
    for every name, valid or not, stored or not, and whatever the
    attestation structure held, it returns [AVP_OK] with the same answer,
    [verified] set, manufacturer [Tropic Square], model [TROPIC01], no
    firmware version, no serial and an empty certificate. *)
Theorem hw_attest_verifies_without_the_chip (v : avp_vault_t) :
  authenticated v = true ->
  exists a,
    (forall (name : string) (att : avp_attestation_t) (b : bus_t),
        avp_hw_attest (Some v) (Some name) (Some att) b = (AVP_OK, Some a, b))
    /\ verified a = true
    /\ string_of_buf (manufacturer a) = "Tropic Square"
    /\ string_of_buf (model a) = "TROPIC01"
    /\ string_of_buf (firmware_version a) = ""
    /\ string_of_buf (serial a) = ""
    /\ certificate_len a = 0%Z.
Proof.
  intros Ha. eexists. split.
  - intros name att b. unfold avp_hw_attest. rewrite Ha. reflexivity.
  - vm_compute. repeat split.
Qed.

(** X12: The three operations that are answered on the host, [avp_discover],
    [avp_list] and [avp_hw_attest], make no libtropic call for any
    arguments, NULL or not, on any vault; [avp_discover] needs no session
    and reports version [0.1.0], conformance [hardware], attestation,
    rotation and 128 secrets, and [avp_list] reports no secrets. *)
Theorem host_side_operations_make_no_call (vault : option avp_vault_t) (v : avp_vault_t)
    (name : option string) (resp : option avp_discover_response_t)
    (r0 : avp_discover_response_t) (att : option avp_attestation_t) (mx : Z)
    (count : option Z) (b : bus_t) :
  (avp_discover vault resp b).2 = b
  /\ (avp_list vault mx count b).2 = b
  /\ (avp_hw_attest vault name att b).2 = b
  /\ (exists r,
        avp_discover (Some v) (Some r0) b = (AVP_OK, Some r, b)
        /\ string_of_buf (version r) = "0.1.0"
        /\ string_of_buf (conformance r) = "hardware"
        /\ attestation r = true /\ rotation r = true
        /\ max_secrets r = 128%Z)
  /\ ((avp_list vault mx count b).1.1.1 = AVP_OK ->
      (avp_list vault mx count b).1.2 = Some 0%Z).
Proof.
  split; [|split; [|split; [|split]]].
  - unfold avp_discover. destruct vault, resp; reflexivity.
  - unfold avp_list. destruct vault as [w|], count; try reflexivity.
    destruct (authenticated w); reflexivity.
  - unfold avp_hw_attest. destruct vault as [w|], name, att; try reflexivity.
    destruct (authenticated w); reflexivity.
  - eexists. split; [reflexivity|]. vm_compute. repeat split.
  - unfold avp_list. destruct vault as [w|], count; try discriminate.
    destruct (authenticated w); [reflexivity | discriminate].
Qed.

(** *** Error messages *)

(** X13: [avp_strerror] gives every code of [avp_ret_t] a message of its own,
    and [Unknown error] to exactly the integers that are no code. *)
Theorem avp_strerror_tells_codes_apart (r1 r2 : avp_ret_t) (n : Z) :
  (avp_strerror (avp_ret_code r1) = avp_strerror (avp_ret_code r2) <-> r1 = r2)
  /\ (avp_strerror n = "Unknown error" <-> (n < 0 \/ 9 < n)%Z).
Proof.
  split.
  - split; [|intros ->; reflexivity].
    destruct r1, r2; vm_compute; intros E; first [reflexivity | discriminate E].
  - unfold avp_strerror.
    repeat match goal with
           | |- context [(n =? avp_ret_code ?r)%Z] =>
               destruct (Z.eqb_spec n (avp_ret_code r)) as [-> | ?];
               [vm_compute; split; [discriminate | intros [? | ?]; discriminate]|]
           end.
    unfold avp_ret_code in *. split; [lia | reflexivity].
Qed.

(** *** Closing the vault *)

Lemma unauthenticated_command_refused (op : avp_op) (v : avp_vault_t) (b : bus_t) :
  is_command op = true -> authenticated v = false ->
  exists r, run_op op (Some v) b = (r, Some v, b)
            /\ (r = AVP_ERR_NOT_INITIALIZED \/ r = AVP_ERR_INTERNAL).
Proof.
  intros Hop Ha. destruct op; try discriminate Hop; cbn [run_op];
    unfold avp_store, avp_retrieve, avp_delete, avp_list, avp_hw_sign, avp_hw_attest;
    run_st'.
  - destruct name, value; rewrite ?Ha; eexists; split; eauto.
  - destruct name, value, value_len; rewrite ?Ha; eexists; split; eauto.
  - destruct name; rewrite ?Ha; eexists; split; eauto.
  - destruct count; rewrite ?Ha; eexists; split; eauto.
  - destruct key_name, data, signature, signature_len; rewrite ?Ha; eexists; split; eauto.
  - destruct name, attestation_arg; rewrite ?Ha; eexists; split; eauto.
Qed.

Lemma closed_vault_refuses (ops : list avp_op) (w : avp_vault_t) (b : bus_t) :
  forallb is_command ops = true -> authenticated w = false ->
  exists rs,
    run_ops ops (Some w) b = (rs, Some w, b)
    /\ length rs = length ops
    /\ Forall (fun r => r = AVP_ERR_NOT_INITIALIZED \/ r = AVP_ERR_INTERNAL) rs.
Proof.
  intros Hops Hw. induction ops as [|op ops IH].
  - exists []. repeat split. constructor.
  - cbn [forallb] in Hops. apply andb_prop in Hops as [Hop Hops].
    destruct (IH Hops) as (rs & Hrs & Hlen & Hall).
    destruct (unauthenticated_command_refused op w b Hop Hw) as (r1 & Hr1 & Hc).
    exists (r1 :: rs). cbn [run_ops]. unfold bind at 1. rewrite Hr1.
    unfold bind at 1. rewrite Hrs.
    repeat split; [cbn; now rewrite Hlen | constructor; assumption].
Qed.

(** X14: After [avp_deinit] the vault is closed: every command that follows,
    with any arguments, is refused with [AVP_ERR_NOT_INITIALIZED] (or
    [AVP_ERR_INTERNAL] for a NULL argument), and neither the vault nor the
    chip nor the call log changes again. *)
Theorem deinit_closes_the_vault (ops : list avp_op) (v : avp_vault_t) (b : bus_t) :
  forallb is_command ops = true ->
  exists v1 b1 rs,
    avp_deinit (Some v) b = (AVP_OK, Some v1, b1)
    /\ run_ops ops (Some v1) b1 = (rs, Some v1, b1)
    /\ length rs = length ops
    /\ Forall (fun r => r = AVP_ERR_NOT_INITIALIZED \/ r = AVP_ERR_INTERNAL) rs.
Proof.
  intros Hops. unfold avp_deinit. run_st'.
  destruct (lt_deinit _ _) as [[r h] ch]. run_st'.
  match goal with
  | |- exists v1 b1 rs, (_, Some ?w, ?b') = _ /\ _ =>
      destruct (closed_vault_refuses ops w b' Hops eq_refl) as (rs & Hrs);
      exists w, b', rs; split; [reflexivity | exact Hrs]
  end.
Qed.

End AvpMoreProperties.

Section ChallengeProperties.
Context {L : Libtropic} {LI : @AvpMore.LibtropicInfo L}.
Import CStr Avp AvpMore.
Local Open Scope string_scope.

(** X15: [avp_hw_challenge] is not behind the session gate and checks
    nothing: on any vault, authenticated or not, it makes one
    [lt_get_info_chip] call and sets [verified] exactly when that call
    returned [LT_OK], whatever chip information came back; the firmware
    version it reports is the constant [1.0.0].  On failure it returns
    [AVP_ERR_HARDWARE_ERROR] and the attestation is zeroed. *)
Theorem hw_challenge_trusts_any_answer (v : avp_vault_t) (att : avp_attestation_t)
    (ib : info_bus_t) :
  let '(lt_ret, h, _, ch) := lt_get_info_chip (lt_handle v) (chip (info_bus ib)) in
  exists a,
    avp_hw_challenge (Some v) (Some att) ib
    = (if lt_is_ok lt_ret then AVP_OK else AVP_ERR_HARDWARE_ERROR,
       Some (set_lt_handle v h), Some a,
       mk_info_bus _ (mk_bus _ ch (calls (info_bus ib))) (S (info_calls ib)))
    /\ verified a = lt_is_ok lt_ret
    /\ string_of_buf (firmware_version a) = (if lt_is_ok lt_ret then "1.0.0" else "")
    /\ string_of_buf (manufacturer a)
       = (if lt_is_ok lt_ret then "Tropic Square" else "")
    /\ string_of_buf (serial a) = ""
    /\ certificate_len a = 0%Z.
Proof.
  unfold avp_hw_challenge.
  destruct (lt_get_info_chip _ _) as [[[r h] info] ch].
  destruct (lt_is_ok r); cbn [negb]; eexists; (split; [reflexivity|]);
    vm_compute; repeat split.
Qed.

End ChallengeProperties.

Section AvpMoreWitnesses.
Import CStr Avp AvpMore.
Local Open Scope string_scope.

(** The session id written over a buffer of 64 bytes ['x']: the 22 bytes
    behind the terminator are still ['x']. *)
Lemma generate_session_id_frame_witness :
  string_of_buf (generate_session_id (replicate 64 "x"%char) (42 + 22))
  = "avp_sess_jklmnopqrstuvwxyzABCDEFGHIJKLMNO"
  /\ drop 42 (generate_session_id (replicate 64 "x"%char) (42 + 22))
     = drop 42 (replicate 64 "x"%char).
Proof.
  destruct (generate_session_id_frame (replicate 64 "x"%char) 22 eq_refl)
    as (_ & Hs & _ & Hd).
  split; [exact Hs | exact Hd].
Defined.

(** A vault fresh from [avp_init] is refused a store. *)
Lemma commands_need_authentication_witness :
  avp_store (Some Sim.vault0) (Some "api_key") (Some [1%Z]) 1 Sim.bus_secret
  = (AVP_ERR_NOT_INITIALIZED, Some Sim.vault0, Sim.bus_secret).
Proof.
  exact (proj1 (commands_need_authentication Sim.vault0 "api_key" [1%Z] [] [] []
                  1 0 0 0 0 0 false attestation_zeroed Sim.bus_secret eq_refl)).
Defined.

(** A store, a delete through a NULL flag, a retrieve from the erased
    slot and a signature that fails: the session is still active. *)
Lemma commands_never_end_the_session_witness :
  exists rs v' b',
    run_ops [OpStore (Some "api_key") (Some [1; 2]%Z) 2;
             OpDelete (Some "api_key") None;
             OpRetrieve (Some "api_key") (Some [0; 0]%Z) (Some 2%Z);
             OpHwSign (Some "key") (Some [7%Z]) 1 (Some []) (Some 0%Z)]
      (Some Sim.vault_auth) Sim.bus0
    = (rs, Some v', b')
    /\ avp_session_active (Some v') = true.
Proof.
  destruct (commands_never_end_the_session
              [OpStore (Some "api_key") (Some [1; 2]%Z) 2;
               OpDelete (Some "api_key") None;
               OpRetrieve (Some "api_key") (Some [0; 0]%Z) (Some 2%Z);
               OpHwSign (Some "key") (Some [7%Z]) 1 (Some []) (Some 0%Z)]
              Sim.vault_auth Sim.bus0 eq_refl eq_refl)
    as (rs & v' & b' & Hrun & Hact & _).
  exists rs, v', b'. split; [exact Hrun | exact Hact].
Defined.

(** A wrong PIN on an authenticated vault: the session stays active. *)
Lemma failed_login_keeps_session_witness :
  exists v' b',
    avp_authenticate (Some Sim.vault_auth) None (Some "000000") 0 Sim.bus0
    = (AVP_ERR_AUTHENTICATION_FAILED, Some v', b')
    /\ avp_session_active (Some v') = true.
Proof.
  destruct (failed_login_keeps_session Sim.vault_auth None "000000" 0 Sim.bus0)
    as (v' & b' & Hauth & _ & _ & _ & _ & Hact & _).
  - vm_compute. discriminate.
  - exists v', b'. split; [exact Hauth|]. rewrite Hact. reflexivity.
Defined.

(** The workspace [production] on a fresh vault. *)
Lemma workspace_is_truncated_and_terminated_witness :
  exists v',
    (avp_authenticate (Some Sim.vault0) (Some "production") None 0 Sim.bus0).1.2 = Some v'
    /\ string_of_buf (workspace v') = "production".
Proof.
  destruct (workspace_is_truncated_and_terminated Sim.vault0 (Some "production") None 0
              Sim.bus0) as (v' & Hv & Hc & _).
  - split; [split; reflexivity|]. split; [reflexivity|]. right. split; reflexivity.
  - exists v'. split; [exact Hv|]. unfold string_of_buf. rewrite Hc. reflexivity.
Defined.


(** A buffer of 65536 bytes is announced to libtropic as one of 0. *)
Lemma retrieve_length_is_16_bit_witness :
  (avp_retrieve (Some Sim.vault_auth) (Some "api_key") (Some [0; 0; 0]%Z) (Some 65536%Z)
     Sim.bus_secret).2
  = (avp_retrieve (Some Sim.vault_auth) (Some "api_key") (Some [0; 0; 0]%Z) (Some 0%Z)
       Sim.bus_secret).2.
Proof.
  exact (proj1 (proj2 (proj2 (retrieve_length_is_16_bit Sim.vault_auth "api_key"
                                [0; 0; 0]%Z 65536 0 Sim.bus_secret eq_refl)))).
Defined.

(** An attestation for a name that is not even valid. *)
Lemma hw_attest_verifies_without_the_chip_witness :
  exists a,
    avp_hw_attest (Some Sim.vault_auth) (Some "9 lives") (Some attestation_zeroed)
      Sim.bus0
    = (AVP_OK, Some a, Sim.bus0)
    /\ verified a = true.
Proof.
  destruct (hw_attest_verifies_without_the_chip Sim.vault_auth eq_refl)
    as (a & Hall & Hv & _).
  exists a. split; [apply Hall | exact Hv].
Defined.

(** After [avp_deinit], a store and a list are refused. *)
Lemma deinit_closes_the_vault_witness :
  exists v1 b1 rs,
    avp_deinit (Some Sim.vault_auth) Sim.bus_secret = (AVP_OK, Some v1, b1)
    /\ run_ops [OpStore (Some "api_key") (Some [1%Z]) 1; OpList 8 (Some 0%Z)] (Some v1) b1
       = (rs, Some v1, b1).
Proof.
  destruct (deinit_closes_the_vault
              [OpStore (Some "api_key") (Some [1%Z]) 1; OpList 8 (Some 0%Z)]
              Sim.vault_auth Sim.bus_secret eq_refl)
    as (v1 & b1 & rs & Hd & Hr & _).
  exists v1, b1, rs. split; [exact Hd | exact Hr].
Defined.

End AvpMoreWitnesses.

(** * Further properties of the STM32U5 port *)

Section PortMoreProperties.
Context `{H : Port.Stm32Hal}.
Import Port PortMore.

Ltac run_hal' := unfold bind, ret, hal, when; cbn [fst snd board hal_calls].

Ltac step_hal' :=
  match goal with
  | |- context [HAL_GPIO_WritePin ?a ?b ?c ?d] =>
      destruct (HAL_GPIO_WritePin a b c d) as [[] ?brd]
  | |- context [HAL_GPIO_Init ?a ?b ?c] =>
      destruct (HAL_GPIO_Init a b c) as [[] ?brd]
  end; cbn [fst snd board hal_calls].

Lemma store_rx_length (rx : list Z) (off : nat) (buf : list Z) :
  length (store_rx off rx buf) = length buf.
Proof.
  revert off buf. induction rx as [|x rx IH]; intros off buf; cbn [store_rx].
  - reflexivity.
  - rewrite IH. apply length_insert.
Qed.

Lemma store_rx_lookup_outside (rx : list Z) (off i : nat) (buf : list Z) :
  (i < off \/ off + length rx <= i)%nat -> store_rx off rx buf !! i = buf !! i.
Proof.
  revert off buf. induction rx as [|x rx IH]; intros off buf Hi; cbn [store_rx].
  - reflexivity.
  - cbn [length] in Hi. rewrite IH by lia. apply list_lookup_insert_ne. lia.
Qed.

Lemma store_rx_lookup_inside (rx : list Z) (off j : nat) (buf : list Z) :
  (j < length rx)%nat -> (off + j < length buf)%nat ->
  store_rx off rx buf !! (off + j)%nat = rx !! j.
Proof.
  revert off j buf. induction rx as [|x rx IH]; intros off j buf Hj Hb;
    cbn [store_rx length] in *; [lia|].
  destruct j as [|j].
  - rewrite Nat.add_0_r in *. rewrite store_rx_lookup_outside by lia.
    apply list_lookup_insert_eq. lia.
  - replace (off + S j)%nat with (S off + j)%nat by lia.
    rewrite IH by (rewrite ?length_insert; lia). reflexivity.
Qed.

(** X16: [lt_port_spi_transfer] changes the L2 buffer only inside the window
    [[offset, offset + tx_data_length)]: the buffer keeps its size, the
    device is not changed, every byte outside the window is as before, a
    refused transfer changes nothing, and inside the window the bytes are
    those that [HAL_SPI_TransmitReceive] received. *)
Theorem spi_transfer_touches_the_window_only (s2 : lt_l2_state_t)
    (offset len timeout : Z) (m : mcu_t) :
  let res := lt_port_spi_transfer s2 offset len timeout m in
  let off := Z.to_nat offset in
  let n := Z.to_nat len in
  let rx :=
    (HAL_SPI_TransmitReceive (spi_handle (device s2)) (take n (drop off (buff s2)))
       len timeout (board m)).1.2 in
  length (buff res.1.2) = length (buff s2)
  /\ device res.1.2 = device s2
  /\ (forall i, (i < off \/ off + n <= i)%nat -> buff res.1.2 !! i = buff s2 !! i)
  /\ (res.1.1 = LT_L1_DATA_LEN_ERROR -> res.1.2 = s2)
  /\ (forall j, res.1.1 <> LT_L1_DATA_LEN_ERROR ->
                (j < n)%nat -> (j < length rx)%nat -> (off + j < length (buff s2))%nat ->
                buff res.1.2 !! (off + j)%nat = rx !! j).
Proof.
  cbv zeta. unfold lt_port_spi_transfer.
  destruct (TR01_L1_LEN_MAX <? offset + len).
  - cbn. repeat split; intros; try reflexivity; congruence.
  - run_hal'. destruct (HAL_SPI_TransmitReceive _ _ _ _ _) as [[r rx] brd].
    cbn [fst snd].
    assert (Hout : forall i, (i < Z.to_nat offset \/ Z.to_nat offset + Z.to_nat len <= i)%nat ->
                     store_rx (Z.to_nat offset) (take (Z.to_nat len) rx) (buff s2) !! i
                     = buff s2 !! i).
    { intros i Hi. apply store_rx_lookup_outside. rewrite length_take. lia. }
    assert (Hin : forall j, (j < Z.to_nat len)%nat -> (j < length rx)%nat ->
                    (Z.to_nat offset + j < length (buff s2))%nat ->
                    store_rx (Z.to_nat offset) (take (Z.to_nat len) rx) (buff s2)
                      !! (Z.to_nat offset + j)%nat = rx !! j).
    { intros j Hj Hr Hb. rewrite store_rx_lookup_inside by (rewrite ?length_take; lia).
      apply lookup_take_lt. lia. }
    destruct (bool_decide (r = HAL_OK)); cbn [negb fst snd buff device];
      rewrite store_rx_length; repeat split; auto; discriminate.
Qed.

(** The chip-select verification loop reads the pin between one and
    [attempts] times. *)
Lemma wait_pin_bounded (n : nat) (port pin : Z) (want : GPIO_PinState) (m : mcu_t) :
  exists k brd r,
    wait_pin n port pin want m
    = (r, mk_mcu _ brd (hal_calls m ++ replicate k (Call_HAL_GPIO_ReadPin port pin)))
    /\ (k <= n)%nat
    /\ ((r = LT_OK /\ (1 <= k)%nat) \/ (r = LT_L1_SPI_ERROR /\ k = n)).
Proof.
  revert m. induction n as [|n IH]; intros m; cbn [wait_pin].
  - exists 0%nat, (board m), LT_L1_SPI_ERROR. run_hal'. cbn [replicate].
    rewrite app_nil_r. destruct m. repeat split; auto.
  - run_hal'. destruct (HAL_GPIO_ReadPin port pin (board m)) as [st brd].
    destruct (bool_decide (st = want)).
    + exists 1%nat, brd, LT_OK. repeat split; [lia | left; auto].
    + destruct (IH (mk_mcu _ brd (hal_calls m ++ [Call_HAL_GPIO_ReadPin port pin])))
        as (k & brd' & r & Hw & Hk & Hr).
      exists (S k), brd', r. rewrite Hw. cbn [hal_calls replicate].
      rewrite <- app_assoc. repeat split; [lia|].
      destruct Hr as [[-> ?] | [-> ->]]; [left | right]; split; auto; lia.
Qed.

(** X17: [lt_port_spi_csn_low] and [lt_port_spi_csn_high] write the CS pin
    once and then read it back between 1 and 10 times, and touch nothing
    else; they return [LT_OK] as soon as a read shows the level written,
    and [LT_L1_SPI_ERROR] only after ten reads.  If the first read shows
    the level written, the result is [LT_OK]. *)
Theorem chip_select_retries_are_bounded (s2 : lt_l2_state_t) (m : mcu_t) :
  let port := spi_cs_gpio_port (device s2) in
  let pin := spi_cs_gpio_pin (device s2) in
  (exists k brd r,
      lt_port_spi_csn_low s2 m
      = (r, mk_mcu _ brd
              (hal_calls m ++ Call_HAL_GPIO_WritePin port pin GPIO_PIN_RESET
                 :: replicate k (Call_HAL_GPIO_ReadPin port pin)))
      /\ (1 <= k <= 10)%nat
      /\ (r = LT_OK \/ (r = LT_L1_SPI_ERROR /\ k = 10%nat)))
  /\ (exists k brd r,
        lt_port_spi_csn_high s2 m
        = (r, mk_mcu _ brd
                (hal_calls m ++ Call_HAL_GPIO_WritePin port pin GPIO_PIN_SET
                   :: replicate k (Call_HAL_GPIO_ReadPin port pin)))
        /\ (1 <= k <= 10)%nat
        /\ (r = LT_OK \/ (r = LT_L1_SPI_ERROR /\ k = 10%nat)))
  /\ ((HAL_GPIO_ReadPin port pin
         (HAL_GPIO_WritePin port pin GPIO_PIN_RESET (board m)).2).1 = GPIO_PIN_RESET ->
      (lt_port_spi_csn_low s2 m).1 = LT_OK)
  /\ ((HAL_GPIO_ReadPin port pin
         (HAL_GPIO_WritePin port pin GPIO_PIN_SET (board m)).2).1 = GPIO_PIN_SET ->
      (lt_port_spi_csn_high s2 m).1 = LT_OK).
Proof.
  cbv zeta. unfold lt_port_spi_csn_low, lt_port_spi_csn_high. run_hal'.
  repeat split.
  - destruct (HAL_GPIO_WritePin _ _ GPIO_PIN_RESET _) as [[] brd].
    match goal with
    | |- context [wait_pin ?n ?p ?q ?w ?mm] =>
        destruct (wait_pin_bounded n p q w mm) as (k & brd' & r & Hw & Hk & Hr)
    end.
    exists k, brd', r. rewrite Hw. cbn [hal_calls]. rewrite <- app_assoc.
    unfold LT_STM32U5_GPIO_CHECK_ATTEMPTS in *.
    split; [reflexivity|]. destruct Hr as [[-> ?] | [-> ->]]; split; auto; lia.
  - destruct (HAL_GPIO_WritePin _ _ GPIO_PIN_SET _) as [[] brd].
    match goal with
    | |- context [wait_pin ?n ?p ?q ?w ?mm] =>
        destruct (wait_pin_bounded n p q w mm) as (k & brd' & r & Hw & Hk & Hr)
    end.
    exists k, brd', r. rewrite Hw. cbn [hal_calls]. rewrite <- app_assoc.
    unfold LT_STM32U5_GPIO_CHECK_ATTEMPTS in *.
    split; [reflexivity|]. destruct Hr as [[-> ?] | [-> ->]]; split; auto; lia.
  - destruct (HAL_GPIO_WritePin _ _ GPIO_PIN_RESET _) as [[] brd]. cbn [snd].
    intros Hread. cbn [wait_pin LT_STM32U5_GPIO_CHECK_ATTEMPTS]. run_hal'.
    destruct (HAL_GPIO_ReadPin _ _ brd) as [st brd']. cbn [fst] in Hread. subst st.
    rewrite bool_decide_eq_true_2 by reflexivity. reflexivity.
  - destruct (HAL_GPIO_WritePin _ _ GPIO_PIN_SET _) as [[] brd]. cbn [snd].
    intros Hread. cbn [wait_pin LT_STM32U5_GPIO_CHECK_ATTEMPTS]. run_hal'.
    destruct (HAL_GPIO_ReadPin _ _ brd) as [st brd']. cbn [fst] in Hread. subst st.
    rewrite bool_decide_eq_true_2 by reflexivity. reflexivity.
Qed.

(** The SPI handle [lt_port_init] writes into the device structure. *)
Lemma lt_port_init_state (s2 : lt_l2_state_t) (m : mcu_t) :
  (lt_port_init s2 m).1.2
  = mk_l2
      (set_spi_handle (device s2)
         (mk_spi_handle (spi_instance (device s2))
            (mk_spi_init
               (if baudrate_prescaler (device s2) =? 0 then SPI_BAUDRATEPRESCALER_32
                else baudrate_prescaler (device s2))
               SPI_DIRECTION_2LINES SPI_PHASE_1EDGE SPI_POLARITY_LOW
               SPI_CRCCALCULATION_DISABLE SPI_DATASIZE_8BIT SPI_FIRSTBIT_MSB SPI_NSS_SOFT
               SPI_TIMODE_DISABLE SPI_MODE_MASTER SPI_NSS_PULSE_DISABLE
               SPI_MASTER_KEEP_IO_STATE_ENABLE)))
      (buff s2).
Proof.
  unfold lt_port_init. run_hal'.
  destruct (HAL_SPI_Init _ _) as [r brd]. cbn [fst snd board hal_calls].
  destruct (bool_decide (r = HAL_OK)); cbn [negb fst snd]; [|reflexivity].
  cbn [set_spi_handle spi_cs_gpio_port spi_cs_gpio_pin int_gpio_port int_gpio_pin
       rst_gpio_port rst_gpio_pin]. run_hal'.
  step_hal'. step_hal'.
  destruct LT_USE_INT_PIN; cbn [fst snd board hal_calls]; [step_hal'|];
    (destruct (negb (rst_gpio_port (device s2) =? 0) && negb (rst_gpio_pin (device s2) =? 0));
     cbn [fst snd board hal_calls]; [step_hal'; step_hal'|]; reflexivity).
Qed.

(** X18: [lt_port_init] succeeds exactly when [HAL_SPI_Init] does.  When it
    fails, [HAL_SPI_Init] is the only call made and no pin is touched.
    When it succeeds, the calls are those of [init_calls]: CS is driven
    high before it becomes an output, the INT pin is configured only when
    the build uses it, and the RST pin only when both its port and its pin
    are set.  The L2 buffer is not changed, and initialising the device
    again leaves it as it is. *)
Theorem port_init_outcome (s2 : lt_l2_state_t) (m : mcu_t) :
  let res := lt_port_init s2 m in
  let s2' := res.1.2 in
  let ok := bool_decide ((HAL_SPI_Init (spi_handle (device s2')) (board m)).1 = HAL_OK) in
  res.1.1 = (if ok then LT_OK else LT_L1_SPI_ERROR)
  /\ hal_calls res.2
     = hal_calls m ++ (if ok then init_calls (device s2')
                       else [Call_HAL_SPI_Init (spi_handle (device s2'))])
  /\ buff s2' = buff s2
  /\ (forall m', (lt_port_init s2' m').1.2 = s2').
Proof.
  cbv zeta. rewrite !lt_port_init_state. cbn [device buff set_spi_handle spi_handle].
  split; [|split; [|split]].
  3: reflexivity.
  3: { intros m'. rewrite lt_port_init_state. destruct s2 as [[] ?]. reflexivity. }
  all: unfold lt_port_init, init_calls; run_hal';
    destruct (HAL_SPI_Init _ _) as [r brd]; cbn [fst snd board hal_calls];
    destruct (bool_decide (r = HAL_OK)); cbn [negb fst snd board hal_calls];
    try reflexivity;
    cbn [set_spi_handle spi_cs_gpio_port spi_cs_gpio_pin int_gpio_port int_gpio_pin
         rst_gpio_port rst_gpio_pin spi_handle]; run_hal';
    step_hal'; step_hal';
    destruct LT_USE_INT_PIN; cbn [fst snd board hal_calls]; try step_hal';
    destruct (rst_gpio_port (device s2) =? 0), (rst_gpio_pin (device s2) =? 0);
    cbn [negb andb orb fst snd board hal_calls]; try (step_hal'; step_hal');
    rewrite <- ?app_assoc; reflexivity.
Qed.

(** The first call of [lt_port_init] is [HAL_SPI_Init] on the handle it
    leaves in the device structure. *)
Lemma port_init_outcome_calls (s2 : lt_l2_state_t) (m : mcu_t) :
  exists rest,
    hal_calls (lt_port_init s2 m).2
    = hal_calls m ++ Call_HAL_SPI_Init (spi_handle (device (lt_port_init s2 m).1.2)) :: rest.
Proof.
  rewrite lt_port_init_state. cbn [device set_spi_handle spi_handle].
  unfold lt_port_init; run_hal';
    destruct (HAL_SPI_Init _ _) as [r brd]; cbn [fst snd board hal_calls];
    destruct (bool_decide (r = HAL_OK)); cbn [negb fst snd board hal_calls].
  2: { exists []. reflexivity. }
  cbn [set_spi_handle spi_cs_gpio_port spi_cs_gpio_pin int_gpio_port int_gpio_pin
       rst_gpio_port rst_gpio_pin spi_handle]; run_hal';
    step_hal'; step_hal';
    destruct LT_USE_INT_PIN; cbn [fst snd board hal_calls]; try step_hal';
    destruct (rst_gpio_port (device s2) =? 0), (rst_gpio_pin (device s2) =? 0);
    cbn [negb andb orb fst snd board hal_calls]; try (step_hal'; step_hal');
    rewrite <- ?app_assoc; cbn [app]; eexists; reflexivity.
Qed.

(** X19: [lt_port_deinit] after [lt_port_init] closes the SPI handle that
    [lt_port_init] opened: the handle passed to [HAL_SPI_DeInit] is the
    one that was passed to [HAL_SPI_Init], it is the last call made, and
    the result is [LT_OK] exactly when [HAL_SPI_DeInit] returns [HAL_OK]. *)
Theorem port_deinit_closes_what_init_opened (s2 : lt_l2_state_t) (m : mcu_t) :
  let res := lt_port_init s2 m in
  let res' := lt_port_deinit res.1.2 res.2 in
  exists hspi rest,
    hal_calls res'.2
    = hal_calls m ++ Call_HAL_SPI_Init hspi :: rest ++ [Call_HAL_SPI_DeInit hspi]
    /\ res'.1
       = (if bool_decide ((HAL_SPI_DeInit hspi (board res.2)).1 = HAL_OK)
          then LT_OK else LT_L1_SPI_ERROR).
Proof.
  cbv zeta.
  destruct (port_init_outcome_calls s2 m) as (rest & Hcalls).
  exists (spi_handle (device (lt_port_init s2 m).1.2)), rest.
  unfold lt_port_deinit. run_hal'.
  destruct (HAL_SPI_DeInit _ _) as [r brd]. cbn [fst snd board hal_calls].
  rewrite Hcalls, <- app_assoc.
  destruct (bool_decide (r = HAL_OK)); split; reflexivity.
Qed.


End PortMoreProperties.

(** * Random numbers, reset and delay *)

Section RandomProperties.
Context {H : Port.Stm32Hal} {HM : @PortMore.Stm32HalMore H}.
Import Port PortMore.

Ltac run_more := unfold bind, ret, hal_more; cbn [fst snd more_board port_calls].

Lemma uint32_bytes_length (d : Z) : length (uint32_bytes d) = 4%nat.
Proof. reflexivity. Qed.

(** What the shared loop does, for any starting position: with fuel for
    one iteration per byte it ends; it only draws random numbers; it
    writes only inside [[off, off + bytes_left)]; it draws no more than one
    number per four bytes (rounded up); it runs to its end exactly when no
    draw fails, and then the window holds the bytes drawn. *)
Lemma rng_fill_spec (fuel : nat) (hrng : Z) (bytes_left off : nat) (buff : list Z)
    (m : mcu_more_t) :
  (bytes_left <= fuel)%nat ->
  exists k ok b,
    let draws := rng_draws k hrng (more_board m) in
    rng_fill fuel hrng bytes_left off buff m
    = (Some (ok, b),
       mk_mcu_more _ draws.2
         (port_calls m ++ replicate k (Call_HAL_RNG_GenerateRandomNumber hrng)))
    /\ length b = length buff
    /\ (forall i, (i < off \/ off + bytes_left <= i)%nat -> b !! i = buff !! i)
    /\ (4 * k < bytes_left + 4)%nat
    /\ (ok = true <-> Forall (fun rd => rd.1 = HAL_OK) draws.1 /\ (bytes_left <= 4 * k)%nat)
    /\ (ok = true ->
        forall j, (j < bytes_left)%nat -> (off + j < length buff)%nat ->
                  b !! (off + j)%nat = drawn_bytes draws.1 !! j).
Proof.
  revert bytes_left off buff m.
  induction fuel as [|fuel IH]; intros bytes_left off buff m Hfuel.
  - assert (bytes_left = 0%nat) as -> by lia.
    exists 0%nat, true, buff. cbn [rng_fill rng_draws replicate fst snd]. run_more.
    rewrite app_nil_r. destruct m. cbn [more_board port_calls].
    repeat split; auto; try lia; intros; lia.
  - destruct bytes_left as [|bl].
    { exists 0%nat, true, buff. cbn [rng_fill rng_draws replicate fst snd]. run_more.
      rewrite app_nil_r. destruct m. cbn [more_board port_calls].
      repeat split; auto; try lia; intros; lia. }
    cbn [rng_fill]. run_more.
    destruct (HAL_RNG_GenerateRandomNumber hrng (more_board m)) as [[r d] brd] eqn:Edraw.
    cbn [fst snd]. destruct (bool_decide (r = HAL_OK)) eqn:Er; cbn [negb].
    + apply bool_decide_eq_true_1 in Er. subst r.
      set (cs := if (S bl <? 4)%nat then S bl else 4%nat).
      assert (Hcs : (1 <= cs <= 4 /\ cs <= S bl /\ (cs < 4 -> cs = S bl))%nat).
      { subst cs. destruct (Nat.ltb_spec (S bl) 4); lia. }
      set (buff' := store_rx off (take cs (uint32_bytes d)) buff).
      set (m' := mk_mcu_more _ brd
                   (port_calls m ++ [Call_HAL_RNG_GenerateRandomNumber hrng])).
      destruct (IH (S bl - cs)%nat (off + cs)%nat buff' m' ltac:(lia))
        as (k & ok & b & Hrun & Hlen & Hout & Hk & Hok & Hin).
      cbv zeta in Hrun, Hok, Hin. subst m'. cbn [more_board port_calls] in *.
      exists (S k), ok, b. cbv zeta. cbn [rng_draws]. rewrite Edraw.
      destruct (rng_draws k hrng brd) as [rest brd''] eqn:Erest.
      cbn [fst snd] in *. rewrite Hrun.
      assert (Hlen' : length buff' = length buff) by apply store_rx_length.
      assert (Htake : length (take cs (uint32_bytes d)) = cs).
      { rewrite length_take, uint32_bytes_length. lia. }
      split; [|split; [|split; [|split; [|split]]]].
      * cbn [replicate]. rewrite <- app_assoc. reflexivity.
      * congruence.
      * intros i Hi. rewrite Hout by lia. subst buff'.
        apply store_rx_lookup_outside. rewrite Htake. lia.
      * lia.
      * rewrite Hok. split.
        -- intros [Hall Hb]. split; [constructor; auto | lia].
        -- intros [Hall Hb]. inversion Hall; subst. split; [assumption | lia].
      * intros Hokt j Hj Hjb. unfold drawn_bytes in *. cbn [map concat snd].
        destruct (Nat.lt_ge_cases j cs) as [Hlt | Hge].
        -- rewrite Hout by lia. subst buff'.
           rewrite store_rx_lookup_inside by (rewrite ?Htake; lia).
           rewrite lookup_take_lt by lia.
           rewrite lookup_app_l by (rewrite uint32_bytes_length; lia). reflexivity.
        -- assert (cs = 4%nat) as Hcs4 by lia.
           replace (off + j)%nat with (off + cs + (j - cs))%nat by lia.
           rewrite (Hin Hokt) by lia.
           rewrite lookup_app_r by (rewrite uint32_bytes_length; lia).
           rewrite uint32_bytes_length, Hcs4. reflexivity.
    + apply bool_decide_eq_false_1 in Er.
      exists 1%nat, false, buff. cbv zeta. cbn [rng_draws]. rewrite Edraw.
      cbn [fst snd replicate].
      repeat split; auto; try lia; try discriminate.
      intros [Hall _]. inversion Hall; subst. cbn in *. contradiction.
Qed.

(** X20: [lt_port_random_bytes] with no RNG handle returns [LT_FAIL] without
    a HAL call and without writing.  With a handle it always returns: it
    makes only [HAL_RNG_GenerateRandomNumber] calls, at most one per four
    bytes asked for (rounded up); the buffer keeps its size and nothing at
    or beyond [count] is written; the result is [LT_OK] exactly when no
    draw failed and enough were made, and then the first [count] bytes are
    the numbers drawn, lowest byte first, the last one cut to fit. *)
Theorem random_bytes_fills_exactly_count (rng_handle : Z) (buff : list Z) (count : nat)
    (m : mcu_more_t) :
  let res := lt_port_random_bytes rng_handle buff count m in
  (rng_handle = 0 -> res = (Some (LT_FAIL, buff), m))
  /\ (rng_handle <> 0 ->
      exists k r b,
        let draws := (rng_draws k rng_handle (more_board m)).1 in
        res.1 = Some (r, b)
        /\ port_calls res.2
           = port_calls m ++ replicate k (Call_HAL_RNG_GenerateRandomNumber rng_handle)
        /\ (4 * k < count + 4)%nat
        /\ length b = length buff
        /\ (forall i, (count <= i)%nat -> b !! i = buff !! i)
        /\ (r = LT_OK \/ r = LT_FAIL)
        /\ (r = LT_OK <-> Forall (fun rd => rd.1 = HAL_OK) draws /\ (count <= 4 * k)%nat)
        /\ (r = LT_OK ->
            forall j, (j < count)%nat -> (j < length buff)%nat ->
                      b !! j = drawn_bytes draws !! j)).
Proof.
  cbv zeta. unfold lt_port_random_bytes. split.
  - intros ->. reflexivity.
  - intros Hh. destruct (Z.eqb_spec rng_handle 0) as [|_]; [contradiction|].
    destruct (rng_fill_spec count rng_handle count 0 buff m ltac:(lia))
      as (k & ok & b & Hrun & Hlen & Hout & Hk & Hok & Hin).
    cbv zeta in *. unfold bind, ret. rewrite Hrun. cbn [fst snd port_calls].
    exists k, (if ok then LT_OK else LT_FAIL), b.
    split; [destruct ok; reflexivity|].
    split; [reflexivity|]. split; [assumption|]. split; [assumption|].
    split; [intros i Hi; apply Hout; lia|].
    split; [destruct ok; auto|].
    split.
    + rewrite <- Hok. destruct ok; split; congruence.
    + intros Hr j Hj Hb. apply (Hin ltac:(destruct ok; congruence) j Hj Hb).
Qed.

(** X21: [wolfcrypt_custom_seed_gen] always returns, with 0 exactly when no
    draw failed and with [RNG_FAILURE_E] otherwise; it writes nothing at or
    beyond [sz], and on success the first [sz] bytes of the output are the
    numbers drawn. *)
Theorem seed_gen_fills_exactly_sz (RNGHandle : Z) (output : list Z) (sz : nat)
    (m : mcu_more_t) :
  let res := wolfcrypt_custom_seed_gen RNGHandle output sz m in
  exists k r b,
    let draws := (rng_draws k RNGHandle (more_board m)).1 in
    res.1 = Some (r, b)
    /\ port_calls res.2
       = port_calls m ++ replicate k (Call_HAL_RNG_GenerateRandomNumber RNGHandle)
    /\ length b = length output
    /\ (forall i, (sz <= i)%nat -> b !! i = output !! i)
    /\ (r = 0 \/ r = RNG_FAILURE_E)
    /\ (r = 0 <-> Forall (fun rd => rd.1 = HAL_OK) draws /\ (sz <= 4 * k)%nat)
    /\ (r = 0 ->
        forall j, (j < sz)%nat -> (j < length output)%nat -> b !! j = drawn_bytes draws !! j).
Proof.
  cbv zeta. unfold wolfcrypt_custom_seed_gen.
  destruct (rng_fill_spec sz RNGHandle sz 0 output m ltac:(lia))
    as (k & ok & b & Hrun & Hlen & Hout & Hk & Hok & Hin).
  cbv zeta in *. unfold bind, ret. rewrite Hrun. cbn [fst snd port_calls].
  exists k, (if ok then 0 else RNG_FAILURE_E), b.
  split; [destruct ok; reflexivity|].
  split; [reflexivity|]. split; [assumption|].
  split; [intros i Hi; apply Hout; lia|].
  split; [destruct ok; auto|].
  split.
  - rewrite <- Hok. unfold RNG_FAILURE_E. destruct ok; split; congruence.
  - intros Hr j Hj Hb. apply Hin; auto.
    unfold RNG_FAILURE_E in Hr. destruct ok; congruence.
Qed.

(** X22: [lt_port_hw_reset] without a configured RST pin (port or pin zero)
    returns [LT_FAIL] and makes no HAL call.  With one it returns [LT_OK]
    after driving the pin low, waiting 10 ms, driving it high and waiting
    50 ms, in this order and with no other call. *)
Theorem hw_reset_pulses_the_reset_line (s2 : lt_l2_state_t) (m : mcu_more_t) :
  let dev := device s2 in
  let configured := negb (rst_gpio_port dev =? 0) && negb (rst_gpio_pin dev =? 0) in
  let res := lt_port_hw_reset s2 m in
  res.1 = (if configured then LT_OK else LT_FAIL)
  /\ port_calls res.2
     = port_calls m
       ++ (if configured
           then [Call_base (Call_HAL_GPIO_WritePin (rst_gpio_port dev) (rst_gpio_pin dev)
                              GPIO_PIN_RESET);
                 Call_HAL_Delay 10;
                 Call_base (Call_HAL_GPIO_WritePin (rst_gpio_port dev) (rst_gpio_pin dev)
                              GPIO_PIN_SET);
                 Call_HAL_Delay 50]
           else [])
  /\ (configured = false -> res.2 = m).
Proof.
  cbv zeta. unfold lt_port_hw_reset.
  destruct (rst_gpio_port (device s2) =? 0), (rst_gpio_pin (device s2) =? 0);
    cbn [negb andb orb]; try (unfold ret; cbn [fst snd]; rewrite app_nil_r; auto).
  run_more.
  destruct (HAL_GPIO_WritePin _ _ GPIO_PIN_RESET _) as [[] b1]. cbn [fst snd more_board port_calls].
  destruct (HAL_Delay LT_STM32U5_RESET_PULSE_MS b1) as [[] b2]. cbn [fst snd more_board port_calls].
  destruct (HAL_GPIO_WritePin _ _ GPIO_PIN_SET _) as [[] b3]. cbn [fst snd more_board port_calls].
  destruct (HAL_Delay LT_STM32U5_RESET_DELAY_MS b3) as [[] b4]. cbn [fst snd more_board port_calls].
  rewrite <- !app_assoc. repeat split; try reflexivity. discriminate.
Qed.

End RandomProperties.

(** * The console of the functional-test firmware *)

Section NucleoProperties.
Import Nucleo.

(** What [put_chars] puts on the line for a string. *)
Lemma put_chars_wire (s : list Z) (log : list uart_call) :
  wire (put_chars s log).2
  = wire log ++ flat_map (fun ch => if ch =? 10 then [13; 10] else [ch mod 256]) s.
Proof.
  revert log. induction s as [|ch s IH]; intros log; cbn [put_chars flat_map].
  - unfold ret. cbn [snd]. rewrite app_nil_r. reflexivity.
  - unfold bind, __io_putchar, bind, ret.
    destruct (ch =? 10); unfold HAL_UART_Transmit; cbn [fst snd];
      rewrite IH; unfold wire; rewrite map_app, concat_app; cbn [map concat];
      rewrite app_nil_r, <- app_assoc; reflexivity.
Qed.

(** A translated string never starts with a bare line feed. *)
Lemma encoded_head_not_lf (s : list Z) (r : list Z) :
  Forall (fun c => 0 <= c < 256) s ->
  flat_map (fun ch => if ch =? 10 then [13; 10] else [ch mod 256]) s <> 10 :: r.
Proof.
  intros Hs. destruct Hs as [|c s Hc Hs]; cbn [flat_map]; [discriminate|].
  destruct (Z.eqb_spec c 10) as [->|Hne]; [discriminate|].
  rewrite Z.mod_small by lia. cbn [app]. congruence.
Qed.

Lemma crlf_to_lf_encoded (s : list Z) :
  Forall (fun c => 0 <= c < 256) s ->
  crlf_to_lf (flat_map (fun ch => if ch =? 10 then [13; 10] else [ch mod 256]) s) = s.
Proof.
  induction 1 as [|c s Hc Hs IH]; [reflexivity|].
  cbn [flat_map]. destruct (Z.eqb_spec c 10) as [->|Hne].
  - cbn [app crlf_to_lf]. cbn. f_equal. exact IH.
  - rewrite Z.mod_small by lia. cbn [app crlf_to_lf].
    pose proof (encoded_head_not_lf s) as Hhead.
    destruct (flat_map _ s) as [|d r] eqn:E.
    + cbn in IH. subst s. reflexivity.
    + destruct (Z.eqb_spec c 13), (Z.eqb_spec d 10); cbn [andb]; subst;
        try (f_equal; exact IH).
      exfalso. exact (Hhead r Hs eq_refl).
Qed.

(** X23: [__io_putchar] returns the character it was given and makes exactly
    one [HAL_UART_Transmit] call with the timeout 0xFFFF.  Through it a
    string of bytes goes onto the line with CR LF for every LF and
    everything else as it is, and no two strings of bytes give the same
    line. *)
Theorem console_newline_translation (s1 s2 : list Z) (log : list uart_call) :
  Forall (fun c => 0 <= c < 256) s1 ->
  Forall (fun c => 0 <= c < 256) s2 ->
  (forall ch, (__io_putchar ch log).1 = ch
              /\ exists c, (__io_putchar ch log).2 = log ++ [c] /\ tx_timeout c = 65535)
  /\ wire (put_chars s1 log).2
     = wire log ++ flat_map (fun ch => if ch =? 10 then [13; 10] else [ch]) s1
  /\ (wire (put_chars s1 log).2 = wire (put_chars s2 log).2 -> s1 = s2).
Proof.
  intros H1 H2. split; [|split].
  - intros ch. unfold __io_putchar, bind, ret, HAL_UART_Transmit.
    destruct (ch =? 10); cbn [fst snd]; (split; [reflexivity|]); eexists; split;
      reflexivity.
  - rewrite put_chars_wire. f_equal. clear H2.
    induction H1 as [|c s Hc Hs IH]; [reflexivity|].
    cbn [flat_map]. rewrite IH. destruct (c =? 10); [reflexivity|].
    rewrite Z.mod_small by lia. reflexivity.
  - rewrite !put_chars_wire. intros Heq. apply app_inv_head in Heq.
    rewrite <- (crlf_to_lf_encoded s1 H1), <- (crlf_to_lf_encoded s2 H2).
    f_equal. exact Heq.
Qed.

End NucleoProperties.

Section NucleoWitnesses.
Import Nucleo.

Lemma console_newline_translation_witness :
  Forall (fun c => 0 <= c < 256) [79; 75; 10]
  /\ wire (put_chars [79; 75; 10] []).2 = [79; 75; 13; 10].
Proof.
  assert (Hb : Forall (fun c => 0 <= c < 256) [79; 75; 10]).
  { repeat constructor; lia. }
  split; [exact Hb|].
  exact (proj1 (proj2 (console_newline_translation [79; 75; 10] [79; 75; 10] [] Hb Hb))).
Defined.

End NucleoWitnesses.
